(** * The safe expression evaluator of the calculator (src/project/calculator.py)

    The calculator parses an expression with the host's [ast.parse], walks the
    tree with [SafeExpressionEvaluator._eval_node] and reclassifies the host's
    exceptions in [SafeExpressionEvaluator.eval].  The development has three
    layers:

    - [Py]: the part of the host (CPython 3.11, the [ast] and [math] modules,
      [float] and [complex] arithmetic) the program calls into.  IEEE-754
      binary64 numbers are Rocq's primitive floats, with what IEEE-754 fixes
      (square root, remainder, conversions, decimal output) defined on
      them; the parser and the transcendental functions of the C library
      are fields of the record [Host].
    - [SafeExpressionEvaluator] and [Calculator]: the program, method by
      method, in a state-and-exception monad over the evaluator object, and
      for the read loop over the calculator and its console.
    - [RefHost]: a small host used to run the program on concrete texts. *)

From Stdlib Require Import ZArith Floats String Ascii List Bool Lia.
From Stdlib Require Import DecimalString DecimalZ DecimalPos.
From stdpp Require Import base gmap strings.
Import ListNotations.

Local Open Scope string_scope.

(** ** Exceptions and results *)

Module Py.

(** The exception classes the program can meet.  A constructor stands for the
    class and its subclasses ([IndentationError] is a [SyntaxError]); the
    argument is [str(e)].  [OtherException] is any other subclass of
    [Exception] ([RecursionError], [MemoryError], [IndexError], ...). *)
Inductive exn : Type :=
| ZeroDivisionError (msg : string)
| SyntaxError (msg : string)
| TypeError (msg : string)
| ValueError (msg : string)
| OverflowError (msg : string)
| OtherException (cls msg : string).

Definition str_exn (e : exn) : string :=
  match e with
  | ZeroDivisionError m | SyntaxError m | TypeError m
  | ValueError m | OverflowError m | OtherException _ m => m
  end.

Inductive res (A : Type) : Type :=
| Ret (a : A)
| Raise (e : exn).
Arguments Ret {A} a.
Arguments Raise {A} e.

Definition res_bind {A B} (r : res A) (k : A -> res B) : res B :=
  match r with
  | Ret a => k a
  | Raise e => Raise e
  end.

#[export] Instance res_ret : MRet res := @Ret.
#[export] Instance res_mbind : MBind res := fun A B k r => res_bind r k.

(** ** Strings: [str.replace], [str.lower], [in] *)

(** [s.replace(c, by)] for a one-character pattern [c]. *)
Fixpoint replace (c : ascii) (by_ : string) (s : string) : string :=
  match s with
  | EmptyString => EmptyString
  | String a rest =>
      if Ascii.eqb a c then by_ +:+ replace c by_ rest
      else String a (replace c by_ rest)
  end.

(** [str.lower] on the ASCII letters; the bytes of the other characters are
    kept (the only use is a search for an ASCII phrase). *)
Definition lower_ascii (a : ascii) : ascii :=
  let n := nat_of_ascii a in
  if (65 <=? n)%nat && (n <=? 90)%nat then ascii_of_nat (n + 32) else a.

Fixpoint lower (s : string) : string :=
  match s with
  | EmptyString => EmptyString
  | String a rest => String (lower_ascii a) (lower rest)
  end.

Fixpoint starts_with (p s : string) : bool :=
  match p, s with
  | EmptyString, _ => true
  | String a p', String b s' => Ascii.eqb a b && starts_with p' s'
  | String _ _, EmptyString => false
  end.

(** [sub in s] *)
Fixpoint contains (sub s : string) : bool :=
  starts_with sub s ||
  match s with
  | EmptyString => false
  | String _ rest => contains sub rest
  end.

Fixpoint occurs (c : ascii) (s : string) : bool :=
  match s with
  | EmptyString => false
  | String a rest => Ascii.eqb a c || occurs c rest
  end.

(** ** Numbers *)

Local Open Scope float_scope.

Definition isnan (x : float) : bool := PrimFloat.is_nan x.
Definition isinf (x : float) : bool := PrimFloat.is_infinity x.
Definition isfinite (x : float) : bool := PrimFloat.is_finite x.
Definition fabs (x : float) : float := PrimFloat.abs x.

(** C's [floor(x) == x] *)
Definition floor_eq (x : float) : bool :=
  match Prim2SF x with
  | S754_nan => false
  | S754_infinity _ | S754_zero _ => true
  | S754_finite _ m e =>
      (0 <=? e)%Z || (Z.pos m mod 2 ^ (- e) =? 0)%Z
  end.

(** [DOUBLE_IS_ODD_INTEGER(x)], that is [fmod(fabs(x), 2.0) == 1.0] *)
Definition is_odd_integer (x : float) : bool :=
  match Prim2SF x with
  | S754_finite _ m e =>
      if (0 <? e)%Z then false
      else (Z.pos m mod 2 ^ (- e) =? 0)%Z && Z.odd (Z.pos m / 2 ^ (- e))
  | _ => false
  end.

(** C's [fmod]: the remainder of the exact quotient truncated towards zero;
    it is a float, with the sign of [x]. *)
Definition fmod (x y : float) : float :=
  match Prim2SF x, Prim2SF y with
  | S754_nan, _ | _, S754_nan => nan
  | S754_infinity _, _ | _, S754_zero _ => nan
  | _, S754_infinity _ | S754_zero _, _ => x
  | S754_finite sx mx ex, S754_finite _ my ey =>
      let e := Z.min ex ey in
      let r := ((Z.pos mx * 2 ^ (ex - e)) mod (Z.pos my * 2 ^ (ey - e)))%Z in
      SF2Prim (binary_normalize prec emax (if sx then - r else r)%Z e sx)
  end.

(** C's [copysign(0.0, x)] *)
Definition copysign_zero (x : float) : float :=
  if PrimFloat.get_sign x then PrimFloat.neg_zero else PrimFloat.zero.

(** The integer part of a finite float (truncation towards zero). *)
Definition trunc_Z (x : float) : option Z :=
  match Prim2SF x with
  | S754_zero _ => Some 0%Z
  | S754_finite s m e =>
      let q := if (0 <=? e)%Z then (Z.pos m * 2 ^ e)%Z
               else (Z.pos m / 2 ^ (- e))%Z in
      Some (if s then (- q)%Z else q)
  | _ => None
  end.

(** The nearest integer of a finite float, ties to the even one. *)
Definition round_half_even_Z (x : float) : option Z :=
  match Prim2SF x with
  | S754_zero _ => Some 0%Z
  | S754_finite s m e =>
      let q :=
        if (0 <=? e)%Z then (Z.pos m * 2 ^ e)%Z
        else
          let d := (2 ^ (- e))%Z in
          let q0 := (Z.pos m / d)%Z in
          let r2 := (2 * (Z.pos m mod d))%Z in
          if (r2 <? d)%Z then q0
          else if (d <? r2)%Z then (q0 + 1)%Z
          else if Z.even q0 then q0 else (q0 + 1)%Z in
      Some (if s then (- q)%Z else q)
  | _ => None
  end.

(** The float nearest to an integer (ties to even); infinite when the
    integer is out of range. *)
Definition float_of_Z (z : Z) : float :=
  SF2Prim (binary_normalize prec emax z 0 false).

(** [float(n)] for an [int] *)
Definition int_to_float (z : Z) : res float :=
  let f := float_of_Z z in
  if isinf f then Raise (OverflowError "int too large to convert to float")
  else Ret f.

(** [float.is_integer] *)
Definition float_is_integer (x : float) : bool := isfinite x && floor_eq x.

(** [PyLong_FromDouble] on a double that holds an integer, given that
    integer when the double is finite *)
Definition long_from_double (x : float) (n : option Z) : res Z :=
  match n with
  | Some n => Ret n
  | None =>
      if isnan x then Raise (ValueError "cannot convert float NaN to integer")
      else Raise (OverflowError "cannot convert float infinity to integer")
  end.

(** [int(x)] and [round(x)] for a [float] *)
Definition float_int (x : float) : res Z := long_from_double x (trunc_Z x).
Definition float_round (x : float) : res Z :=
  long_from_double x (round_half_even_Z x).

(** [x - n] for a [float] and an [int]: the [int] is converted first. *)
Definition float_sub_int (x : float) (n : Z) : res float :=
  y ← int_to_float n; Ret (x - y).

(** [str(n)] for an [int] *)
Definition str_int (n : Z) : string := NilZero.string_of_int (Z.to_int n).

(** *** [float.__format__] with the presentation types [e] and [g]

    The digits are those of the exact value of the float, rounded half to
    even at the last one ([PyOS_double_to_string]). *)

Definition round_half_even_div (num den : Z) : Z :=
  let q := (num / den)%Z in
  let r2 := (2 * (num mod den))%Z in
  if (r2 <? den)%Z then q
  else if (den <? r2)%Z then (q + 1)%Z
  else if Z.even q then q else (q + 1)%Z.

(** [10 ^ k <= n / d] *)
Definition ge_pow10 (n d k : Z) : bool :=
  if (0 <=? k)%Z then (10 ^ k * d <=? n)%Z else (d <=? n * 10 ^ (- k))%Z.

Fixpoint adjust_exponent (fuel : nat) (n d k : Z) : Z :=
  match fuel with
  | O => k
  | S fuel =>
      if ge_pow10 n d (k + 1) then adjust_exponent fuel n d (k + 1) else k
  end.

(** The [k] with [10 ^ k <= n / d < 10 ^ (k + 1)], for [0 < n] and
    [0 < d]: an estimate from the binary logarithms that starts at most
    five below, then moved up. *)
Definition decimal_exponent (n d : Z) : Z :=
  adjust_exponent 8 n d ((Z.log2 n - Z.log2 d) * 1233 / 4096 - 2).

(** [n / d] to [nd] significant digits: the digits as a number [q] with
    [10 ^ (nd - 1) <= q < 10 ^ nd] and the decimal exponent of the first
    one. *)
Definition decimal_digits (nd n d : Z) : Z * Z :=
  let k := decimal_exponent n d in
  let s := (k - nd + 1)%Z in
  let q :=
    if (0 <=? s)%Z then round_half_even_div n (d * 10 ^ s)
    else round_half_even_div (n * 10 ^ (- s)) d in
  if (q =? 10 ^ nd)%Z then ((10 ^ (nd - 1))%Z, (k + 1)%Z) else (q, k).

(** The exact value of a finite float as a fraction. *)
Definition fraction_of (m : positive) (e : Z) : Z * Z :=
  if (0 <=? e)%Z then ((Z.pos m * 2 ^ e)%Z, 1%Z)
  else (Z.pos m, (2 ^ (- e))%Z).

Fixpoint zeros (n : nat) : string :=
  match n with O => EmptyString | S n => String "0" (zeros n) end.

Fixpoint strip_zeros (s : string) : string :=
  match s with
  | EmptyString => EmptyString
  | String a rest =>
      match strip_zeros rest with
      | EmptyString => if Ascii.eqb a "0" then EmptyString
                       else String a EmptyString
      | rest' => String a rest'
      end
  end.

Definition point (frac : string) : string :=
  match frac with EmptyString => EmptyString | _ => "." +:+ frac end.

(** The exponent part, with its sign and two digits at least. *)
Definition exponent_string (k : Z) : string :=
  "e" +:+ (if (k <? 0)%Z then "-" else "+")
  +:+ (if (Z.abs k <? 10)%Z then "0" else "") +:+ str_int (Z.abs k).

Definition sign_string (s : bool) : string := if s then "-" else "".

(** [format(x, '.<precision>e')] *)
Definition format_e (precision : nat) (x : float) : string :=
  match Prim2SF x with
  | S754_nan => "nan"
  | S754_infinity s => sign_string s +:+ "inf"
  | S754_zero s => sign_string s +:+ "0" +:+ point (zeros precision) +:+ "e+00"
  | S754_finite s m e =>
      let (n, d) := fraction_of m e in
      let (q, k) := decimal_digits (Z.of_nat precision + 1) n d in
      let ds := str_int q in
      sign_string s +:+ String.substring 0 1 ds
      +:+ point (String.substring 1 precision ds) +:+ exponent_string k
  end.

(** [format(x, '.<precision>g')], for a precision of one at least *)
Definition format_g (precision : nat) (x : float) : string :=
  match Prim2SF x with
  | S754_nan => "nan"
  | S754_infinity s => sign_string s +:+ "inf"
  | S754_zero s => sign_string s +:+ "0"
  | S754_finite s m e =>
      let (n, d) := fraction_of m e in
      let (q, k) := decimal_digits (Z.of_nat precision) n d in
      let ds := str_int q in
      sign_string s +:+
      (if (k <? -4)%Z || (Z.of_nat precision <=? k)%Z then
         String.substring 0 1 ds
         +:+ point (strip_zeros (String.substring 1 precision ds))
         +:+ exponent_string k
       else if (0 <=? k)%Z then
         let before := S (Z.to_nat k) in
         String.substring 0 before ds
         +:+ point (strip_zeros (String.substring before precision ds))
       else
         "0." +:+ zeros (Z.to_nat (- k - 1)) +:+ strip_zeros ds)
  end.

(** The objects an evaluation produces: a [float], or the [complex] that
    [float.__pow__] hands back for a negative base and a fractional
    exponent. *)
Inductive value : Type :=
| VFloat (x : float)
| VComplex (re im : float).

Definition type_name (v : value) : string :=
  match v with VFloat _ => "float" | VComplex _ _ => "complex" end.

Definition to_complex (v : value) : float * float :=
  match v with
  | VFloat x => (x, 0)
  | VComplex re im => (re, im)
  end.

(** [errno] after a call into the C library *)
Inductive errno : Type := ENONE | EDOM | ERANGE.

(** ** The nodes of [ast] *)

(** [ast.Constant.value] *)
Inductive constant : Type :=
| CInt (n : Z)
| CBool (b : bool)
| CFloat (x : float)
| CComplex (re im : float)
| CStr (s : string)
| CBytes (s : string)
| CNone
| CEllipsis.

(** [type(node.value).__name__] *)
Definition constant_type_name (c : constant) : string :=
  match c with
  | CInt _ => "int"
  | CBool _ => "bool"
  | CFloat _ => "float"
  | CComplex _ _ => "complex"
  | CStr _ => "str"
  | CBytes _ => "bytes"
  | CNone => "NoneType"
  | CEllipsis => "ellipsis"
  end.

Inductive unaryop : Type := UAdd | USub | Not | Invert.

Definition unaryop_name (op : unaryop) : string :=
  match op with
  | UAdd => "UAdd" | USub => "USub" | Not => "Not" | Invert => "Invert"
  end.

Inductive operator : Type :=
| Add | Sub | Mult | MatMult | Div | Mod | Pow
| LShift | RShift | BitOr | BitXor | BitAnd | FloorDiv.

Definition operator_name (op : operator) : string :=
  match op with
  | Add => "Add" | Sub => "Sub" | Mult => "Mult" | MatMult => "MatMult"
  | Div => "Div" | Mod => "Mod" | Pow => "Pow"
  | LShift => "LShift" | RShift => "RShift" | BitOr => "BitOr"
  | BitXor => "BitXor" | BitAnd => "BitAnd" | FloorDiv => "FloorDiv"
  end.

(** The expression classes the evaluator has no branch for; it reads nothing
    of such a node but its class name. *)
Inductive other_expr : Type :=
| KBoolOp | KNamedExpr | KLambda | KIfExp | KDict | KSet | KListComp
| KSetComp | KDictComp | KGeneratorExp | KAwait | KYield | KYieldFrom
| KCompare | KFormattedValue | KJoinedStr | KSubscript | KStarred
| KList | KTuple | KSlice.

Definition other_expr_name (k : other_expr) : string :=
  match k with
  | KBoolOp => "BoolOp" | KNamedExpr => "NamedExpr" | KLambda => "Lambda"
  | KIfExp => "IfExp" | KDict => "Dict" | KSet => "Set"
  | KListComp => "ListComp" | KSetComp => "SetComp"
  | KDictComp => "DictComp" | KGeneratorExp => "GeneratorExp"
  | KAwait => "Await" | KYield => "Yield" | KYieldFrom => "YieldFrom"
  | KCompare => "Compare" | KFormattedValue => "FormattedValue"
  | KJoinedStr => "JoinedStr" | KSubscript => "Subscript"
  | KStarred => "Starred" | KList => "List" | KTuple => "Tuple"
  | KSlice => "Slice"
  end.

(** [ast.AST], the expression nodes.  A [keyword] of a call is its optional
    name and its value. *)
#[warnings="-register-all"]
Inductive AST : Type :=
| Constant (value : constant)
| UnaryOp (op : unaryop) (operand : AST)
| BinOp (left : AST) (op : operator) (right : AST)
| Call (func : AST) (args : list AST) (keywords : list (option string * AST))
| Name (id : string)
| Attribute (value : AST) (attr : string)
| Other (k : other_expr).

(** [type(node).__name__] *)
Definition node_type_name (node : AST) : string :=
  match node with
  | Constant _ => "Constant"
  | UnaryOp _ _ => "UnaryOp"
  | BinOp _ _ _ => "BinOp"
  | Call _ _ _ => "Call"
  | Name _ => "Name"
  | Attribute _ _ => "Attribute"
  | Other k => other_expr_name k
  end.

(** ** The host interface *)

(** What the program takes from the host without this development looking
    inside: the parser, the transcendental functions of the C library with
    the [errno] they leave, the complex power ([c_powi] or [_Py_c_pow],
    then [_Py_ADJUST_ERANGE2]), and the room on the interpreter's stack:
    the number of frames that are left when [eval] starts the walk
    ([sys.getrecursionlimit()] less the frames in use there) and the text
    of the [RecursionError] raised when a call finds none. *)
Record Host : Type := {
  ast_parse : string -> res AST;   (* ast.parse(source, mode='eval').body *)
  stack_room : nat;
  recursion_message : string;
  libm_sin : float -> float * errno;
  libm_cos : float -> float * errno;
  libm_tan : float -> float * errno;
  libm_log : float -> float * errno;
  libm_log10 : float -> float * errno;
  libm_pow : float -> float -> float * errno;
  c_pow : float * float -> float * float -> (float * float) * errno
}.

(** [RecursionError], a [RuntimeError] *)
Definition RecursionError (H : Host) : exn :=
  OtherException "RecursionError" (recursion_message H).

(** The six functions of [math] the evaluator's table points to *)
Inductive math_function : Type :=
| math_sqrt | math_sin | math_cos | math_tan | math_log | math_log10.

(** ** [float] and [complex] arithmetic (Objects/floatobject.c,
    Objects/complexobject.c) *)

Section Arithmetic.

Context (H : Host).

(** [float_div] *)
Definition float_div (a b : float) : res value :=
  if b =? 0 then Raise (ZeroDivisionError "float division by zero")
  else Ret (VFloat (a / b)).

(** [float_rem]: the remainder takes the sign of the divisor. *)
Definition float_rem (vx wx : float) : res value :=
  if wx =? 0 then Raise (ZeroDivisionError "float modulo")
  else
    let mod_ := fmod vx wx in
    Ret (VFloat
           (if negb (mod_ =? 0) then
              if xorb (wx <? 0) (mod_ <? 0) then mod_ + wx else mod_
            else copysign_zero wx)).

(** [_Py_ADJUST_ERANGE1] *)
Definition adjust_erange1 (x : float) (en : errno) : errno :=
  match en with
  | ENONE => if isinf x then ERANGE else ENONE
  | ERANGE => if x =? 0 then ENONE else ERANGE
  | EDOM => EDOM
  end.

(** [complex_pow] on operands already converted to C complex numbers *)
Definition complex_pow (a b : float * float) : res value :=
  let '(p, en) := c_pow H a b in
  match en with
  | EDOM => Raise (ZeroDivisionError "0.0 to a negative or complex power")
  | ERANGE => Raise (OverflowError "complex exponentiation")
  | ENONE => Ret (VComplex (fst p) (snd p))
  end.

(** [float_pow] *)
Definition float_pow (iv iw : float) : res value :=
  if iw =? 0 then Ret (VFloat 1)
  else if isnan iv then Ret (VFloat iv)
  else if isnan iw then Ret (VFloat (if iv =? 1 then 1 else iw))
  else if isinf iw then
    let iv := fabs iv in
    if iv =? 1 then Ret (VFloat 1)
    else if Bool.eqb (0 <? iw) (1 <? iv) then Ret (VFloat (fabs iw))
    else Ret (VFloat 0)
  else if isinf iv then
    let iw_is_odd := is_odd_integer iw in
    if 0 <? iw then Ret (VFloat (if iw_is_odd then iv else fabs iv))
    else Ret (VFloat (if iw_is_odd then copysign_zero iv else 0))
  else if iv =? 0 then
    let iw_is_odd := is_odd_integer iw in
    if iw <? 0 then
      Raise (ZeroDivisionError "0.0 cannot be raised to a negative power")
    else Ret (VFloat (if iw_is_odd then iv else 0))
  else if (iv <? 0) && negb (floor_eq iw) then
    (* negative numbers raised to fractional powers become complex *)
    complex_pow (iv, 0) (iw, 0)
  else
    let negate_result := (iv <? 0) && is_odd_integer iw in
    let iv := if iv <? 0 then - iv else iv in
    if iv =? 1 then Ret (VFloat (if negate_result then -1 else 1))
    else
      let '(ix, en) := libm_pow H iv iw in
      let en := adjust_erange1 ix en in
      let ix := if negate_result then - ix else ix in
      match en with
      | ENONE => Ret (VFloat ix)
      | ERANGE => Raise (OverflowError "(34, 'Numerical result out of range')")
      | EDOM => Raise (ValueError "(33, 'Numerical argument out of domain')")
      end.

(** [_Py_c_sum], [_Py_c_diff], [_Py_c_prod], [_Py_c_neg] *)
Definition c_sum (a b : float * float) : float * float :=
  (fst a + fst b, snd a + snd b).
Definition c_diff (a b : float * float) : float * float :=
  (fst a - fst b, snd a - snd b).
Definition c_prod (a b : float * float) : float * float :=
  (fst a * fst b - snd a * snd b, fst a * snd b + snd a * fst b).
Definition c_neg (a : float * float) : float * float :=
  (- fst a, - snd a).

(** [_Py_c_quot] *)
Definition c_quot (a b : float * float) : (float * float) * errno :=
  let abs_breal := if fst b <? 0 then - fst b else fst b in
  let abs_bimag := if snd b <? 0 then - snd b else snd b in
  if abs_bimag <=? abs_breal then
    if abs_breal =? 0 then ((0, 0), EDOM)
    else
      let ratio := snd b / fst b in
      let denom := fst b + snd b * ratio in
      (((fst a + snd a * ratio) / denom, (snd a - fst a * ratio) / denom),
       ENONE)
  else if abs_breal <=? abs_bimag then
    let ratio := fst b / snd b in
    let denom := fst b * ratio + snd b in
    (((fst a * ratio + snd a) / denom, (snd a * ratio - fst a) / denom),
     ENONE)
  else ((nan, nan), ENONE).

(** [complex_div] *)
Definition complex_div (a b : float * float) : res value :=
  let '(q, en) := c_quot a b in
  match en with
  | EDOM => Raise (ZeroDivisionError "complex division by zero")
  | _ => Ret (VComplex (fst q) (snd q))
  end.

Definition of_complex (c : float * float) : value := VComplex (fst c) (snd c).

(** The operators as the interpreter dispatches them on the operand types:
    two floats use the [float] slot, anything with a [complex] the [complex]
    slot after [TO_COMPLEX]. *)
Definition py_pos (v : value) : res value := Ret v.

Definition py_neg (v : value) : res value :=
  match v with
  | VFloat x => Ret (VFloat (- x))
  | VComplex re im => Ret (of_complex (c_neg (re, im)))
  end.

Definition py_add (l r : value) : res value :=
  match l, r with
  | VFloat a, VFloat b => Ret (VFloat (a + b))
  | _, _ => Ret (of_complex (c_sum (to_complex l) (to_complex r)))
  end.

Definition py_sub (l r : value) : res value :=
  match l, r with
  | VFloat a, VFloat b => Ret (VFloat (a - b))
  | _, _ => Ret (of_complex (c_diff (to_complex l) (to_complex r)))
  end.

Definition py_mul (l r : value) : res value :=
  match l, r with
  | VFloat a, VFloat b => Ret (VFloat (a * b))
  | _, _ => Ret (of_complex (c_prod (to_complex l) (to_complex r)))
  end.

Definition py_truediv (l r : value) : res value :=
  match l, r with
  | VFloat a, VFloat b => float_div a b
  | _, _ => complex_div (to_complex l) (to_complex r)
  end.

(** [complex] has no [%]. *)
Definition py_mod (l r : value) : res value :=
  match l, r with
  | VFloat a, VFloat b => float_rem a b
  | _, _ =>
      Raise (TypeError ("unsupported operand type(s) for %: '" +:+
                        type_name l +:+ "' and '" +:+ type_name r +:+ "'"))
  end.

Definition py_pow (l r : value) : res value :=
  match l, r with
  | VFloat a, VFloat b => float_pow a b
  | _, _ => complex_pow (to_complex l) (to_complex r)
  end.

(** ** The [math] module (Modules/mathmodule.c) *)

(** [is_error]: the exception for a non-zero [errno], if any *)
Definition is_error (en : errno) (x : float) : option exn :=
  match en with
  | ENONE => None
  | EDOM => Some (ValueError "math domain error")
  | ERANGE =>
      if fabs x <? 1.5 then None
      else Some (OverflowError "math range error")
  end.

(** [math_1] on a C double *)
Definition math_1 (func : float -> float * errno) (can_overflow : bool)
    (x : float) : res value :=
  let '(r, en) := func x in
  if isnan r && negb (isnan x) then Raise (ValueError "math domain error")
  else if isinf r && isfinite x then
    if can_overflow then Raise (OverflowError "math range error")
    else Raise (ValueError "math domain error")
  else
    match (if isfinite r then is_error en r else None) with
    | Some e => Raise e
    | None => Ret (VFloat r)
    end.

(** C's [sqrt] *)
Definition libm_sqrt (x : float) : float * errno :=
  (PrimFloat.sqrt x, if x <? 0 then EDOM else ENONE).

(** [m_log] and [m_log10]: the wrappers that keep the C library away from
    the arguments where platforms disagree *)
Definition m_log_with (log : float -> float * errno) (x : float)
    : float * errno :=
  if isfinite x then
    if 0 <? x then log x
    else if x =? 0 then (neg_infinity, EDOM)
    else (nan, EDOM)
  else if isnan x then (x, ENONE)
  else if 0 <? x then (x, ENONE)
  else (nan, EDOM).

Definition m_log : float -> float * errno := m_log_with (libm_log H).
Definition m_log10 : float -> float * errno := m_log_with (libm_log10 H).

Definition math_c_function (f : math_function) : float -> float * errno :=
  match f with
  | math_sqrt => libm_sqrt
  | math_sin => libm_sin H
  | math_cos => libm_cos H
  | math_tan => libm_tan H
  | math_log => m_log
  | math_log10 => m_log10
  end.

(** Calling [math.f(arg)]: the argument goes through [PyFloat_AsDouble]. *)
Definition math_call (f : math_function) (arg : value) : res value :=
  match arg with
  | VFloat x => math_1 (math_c_function f) false x
  | VComplex _ _ => Raise (TypeError "must be real number, not complex")
  end.

End Arithmetic.

(** [math.pi] and [math.e] *)
Definition math_pi : float := 0x1.921fb54442d18p+1.
Definition math_e : float := 0x1.5bf0a8b145769p+1.

End Py.

(** ** class SafeExpressionEvaluator *)

Module SafeExpressionEvaluator.

Import Py.

Inductive module : Type := module_math.

(** The attributes [__init__] sets on the object. *)
Record t : Type := mk {
  math_module : module;
  allowed_functions : gmap string math_function;
  allowed_names : gmap string float
}.

Definition __init__ : t :=
  {| math_module := module_math;
     allowed_functions :=
       {[ "sqrt" := math_sqrt; "sin" := math_sin; "cos" := math_cos;
          "tan" := math_tan; "log" := math_log; "log10" := math_log10 ]};
     allowed_names := {[ "pi" := math_pi; "e" := math_e ]} |}.

(** A method body: it runs on the object [self], returns or raises, and
    leaves an object behind. *)
Definition M (A : Type) : Type := t -> res A * t.

Definition ret {A} (a : A) : M A := fun self => (Ret a, self).

Definition raise {A} (e : exn) : M A := fun self => (Raise e, self).

Definition bind {A B} (k : A -> M B) (m : M A) : M B :=
  fun self =>
    match m self with
    | (Ret a, self') => k a self'
    | (Raise e, self') => (Raise e, self')
    end.

#[export] Instance M_ret : MRet M := @ret.
#[export] Instance M_bind : MBind M := @bind.

(** A call into the host, which does not see [self]. *)
Definition lift {A} (r : res A) : M A := fun self => (r, self).

(** Reading an attribute, [self.field]. *)
Definition attr {A} (field : t -> A) : M A :=
  fun self => (Ret (field self), self).

(** [try: body  except ... as e: handler e] *)
Definition try_except {A} (body : M A) (handler : exn -> M A) : M A :=
  fun self =>
    match body self with
    | (Ret a, self') => (Ret a, self')
    | (Raise e, self') => handler e self'
    end.

(** The three messages [eval] puts in place of the host's. *)
Definition division_by_zero_message : string := "❌ 错误：除零错误".
Definition syntax_error_message : string := "❌ 错误：语法错误，请检查输入".
Definition domain_error_message : string :=
  "❌ 错误：数学域错误（如负数开平方）".

Section Methods.

Context (H : Host).

(** [_eval_node], one branch for each [isinstance] test, in the order of
    the source.  Each call of [_eval_node] takes a frame of the
    interpreter's stack, and [frames] is how many are left: with none the
    call raises [RecursionError] and its body does not run; the calls in the
    body have one frame less. *)
Fixpoint _eval_node (frames : nat) (node : AST) {struct frames} : M value :=
  match frames with
  | O => raise (RecursionError H)
  | S frames =>
  match node with
  | Constant value =>
      match value with
      | CInt n => x ← lift (int_to_float n); ret (VFloat x)
      | CBool b => ret (VFloat (if b then 1 else 0)%float)
      | CFloat x => ret (VFloat x)
      | _ => raise (ValueError ("不支持的常量类型：" +:+ constant_type_name value))
      end
  | UnaryOp op operand =>
      operand' ← _eval_node frames operand;
      match op with
      | UAdd => lift (py_pos operand')
      | USub => lift (py_neg operand')
      | _ => raise (ValueError ("不支持的一元运算符：" +:+ unaryop_name op))
      end
  | BinOp node_left op node_right =>
      left' ← _eval_node frames node_left;
      right' ← _eval_node frames node_right;
      match op with
      | Add => lift (py_add left' right')
      | Sub => lift (py_sub left' right')
      | Mult => lift (py_mul left' right')
      | Div => lift (py_truediv left' right')
      | Mod => lift (py_mod left' right')
      | Pow => lift (py_pow H left' right')
      | _ => raise (ValueError ("不支持的二元运算符：" +:+ operator_name op))
      end
  | Call func args keywords =>
      func_name ←
        match func with
        | Name id => ret id
        | Attribute value attr_ =>
            match value with
            | Name id =>
                if String.eqb id "math" then
                  fns ← attr allowed_functions;
                  match fns !! attr_ with
                  | None => raise (ValueError ("不支持的函数：" +:+ attr_))
                  | Some _ => ret attr_
                  end
                else raise (ValueError ("不支持的属性访问：" +:+ attr_))
            | _ => raise (ValueError ("不支持的属性访问：" +:+ attr_))
            end
        | _ => raise (ValueError "不支持的函数调用格式")
        end;
      fns ← attr allowed_functions;
      match fns !! func_name with
      | None => raise (ValueError ("不支持的函数：" +:+ func_name))
      | Some _ =>
          if negb (length args =? 1)%nat then
            raise (ValueError ("函数 " +:+ func_name +:+ " 需要1个参数"))
          else
            match keywords with
            | _ :: _ => raise (ValueError "不支持关键字参数")
            | [] =>
                match args with
                | [] => raise (OtherException "IndexError" "list index out of range")
                | arg0 :: _ =>
                    arg ← _eval_node frames arg0;
                    fns ← attr allowed_functions;
                    match fns !! func_name with
                    | None => raise (OtherException "KeyError" func_name)
                    | Some f => lift (math_call H f arg)
                    end
                end
            end
      end
  | Name id =>
      names ← attr allowed_names;
      match names !! id with
      | Some x => ret (VFloat x)
      | None => raise (ValueError ("未定义的名称：" +:+ id))
      end
  | _ => raise (ValueError ("不支持的 AST 节点类型：" +:+ node_type_name node))
  end
  end.

(** The [except] clauses of [eval], in their order. *)
Definition eval_except (e : exn) : M value :=
  match e with
  | ZeroDivisionError _ => raise (ValueError division_by_zero_message)
  | SyntaxError _ | TypeError _ => raise (ValueError syntax_error_message)
  | ValueError _ =>
      if contains "math domain error" (lower (str_exn e)) then
        raise (ValueError domain_error_message)
      else raise e
  | _ => raise (ValueError ("❌ 错误：" +:+ str_exn e))
  end.

(** [eval]: the rewriting of the caret, the parser and the walk, all three
    inside the [try]; the walk starts with the frames the stack has left. *)
Definition eval (expression : string) : M value :=
  try_except
    (let expression := replace "^" "**" expression in
     tree ← lift (ast_parse H expression);
     _eval_node (stack_room H) tree)
    eval_except.

End Methods.

End SafeExpressionEvaluator.

(** ** class Calculator *)

Module Calculator.

Import Py.

(** The constants of [format_result], as the floats the literals denote. *)
Definition f_1e_10 : float := 0x1.b7cdfd9d7bdbbp-34.   (* 1e-10 *)
Definition f_1e6 : float := 0x1.e848p+19.               (* 1e6 *)
Definition f_1e_4 : float := 0x1.a36e2eb1c432dp-14.    (* 1e-4 *)

(** [format_result] has a [float] in mind; what it is handed is whatever
    the evaluator returned. *)
Definition format_result (result : value) : res string :=
  match result with
  | VComplex _ _ =>
      Raise (OtherException "AttributeError"
               "'complex' object has no attribute 'is_integer'")
  | VFloat result =>
      if float_is_integer result then
        n ← float_int result; Ret (str_int n)
      else
        rounded ← float_round result;
        diff ← float_sub_int result rounded;
        if (fabs diff <? f_1e_10)%float then
          rounded ← float_round result; Ret (str_int rounded)
        else if (f_1e6 <=? fabs result)%float
                || (fabs result <=? f_1e_4)%float then
          Ret (format_e 6 result)
        else Ret (format_g 8 result)
  end.

(** *** The session

    The object, the console it talks to and the methods of the read loop.
    The console is what is still to come on standard input (a finite script,
    then end of file) and what was written to standard output, one entry for
    each write.  [str.strip] and [str.lower] on what the user types are the
    host's, on any character of Unicode: they are parameters here. *)

(** What [input] does next: it returns a line, or the user interrupts it. *)
Inductive input_event : Type :=
| Line (text : string)
| Interrupt.

Record console : Type := mkConsole {
  stdin : list input_event;
  stdout : list string
}.

(** What a statement raises: an exception of a class under [Exception]
    ([EOFError] is [OtherException "EOFError"]), or [KeyboardInterrupt],
    which is not under [Exception]. *)
Inductive raised : Type :=
| Exception (e : exn)
| KeyboardInterrupt.

Inductive outcome (A : Type) : Type :=
| Done (a : A)
| Raised (r : raised).
Arguments Done {A} a.
Arguments Raised {A} r.

(** The attributes [__init__] sets on the object. *)
Record t : Type := mk {
  history : list string;
  welcome_shown : bool;
  evaluator : SafeExpressionEvaluator.t
}.

Definition __init__ : t :=
  {| history := [];
     welcome_shown := false;
     evaluator := SafeExpressionEvaluator.__init__ |}.

(** A method body: it runs on the object and the console, ends or raises,
    and leaves both behind. *)
Definition C (A : Type) : Type := t * console -> outcome A * (t * console).

Definition done {A} (a : A) : C A := fun w => (Done a, w).

Definition throw {A} (r : raised) : C A := fun w => (Raised r, w).

Definition and_then {A B} (k : A -> C B) (m : C A) : C B :=
  fun w =>
    match m w with
    | (Done a, w') => k a w'
    | (Raised r, w') => (Raised r, w')
    end.

#[export] Instance C_ret : MRet C := @done.
#[export] Instance C_bind : MBind C := @and_then.

(** [try: body  except ...: handler], where [handler] is [None] on what no
    clause catches. *)
Definition try_catch {A} (body : C A) (handler : raised -> option (C A))
    : C A :=
  fun w =>
    match body w with
    | (Done a, w') => (Done a, w')
    | (Raised r, w') =>
        match handler r with
        | Some h => h w'
        | None => (Raised r, w')
        end
    end.

(** A call that neither reads nor writes the object and the console. *)
Definition pure {A} (r : res A) : C A :=
  fun w =>
    match r with
    | Ret a => (Done a, w)
    | Raise e => (Raised (Exception e), w)
    end.

Definition self_history : C (list string) := fun w => (Done (history (fst w)), w).

Definition self_welcome_shown : C bool :=
  fun w => (Done (welcome_shown (fst w)), w).

Definition set_history (h : list string) : C unit :=
  fun '(self, con) =>
    (Done tt,
     ({| history := h; welcome_shown := welcome_shown self;
         evaluator := evaluator self |}, con)).

Definition set_welcome_shown (b : bool) : C unit :=
  fun '(self, con) =>
    (Done tt,
     ({| history := history self; welcome_shown := b;
         evaluator := evaluator self |}, con)).

Definition nl : string := String "010" EmptyString.

Definition write (text : string) : C unit :=
  fun '(self, con) =>
    (Done tt, (self, {| stdin := stdin con; stdout := (stdout con ++ [text])%list |})).

(** [print(text)] *)
Definition print (text : string) : C unit := write (text +:+ nl).

(** Several [print] statements in a row. *)
Fixpoint print_lines (texts : list string) : C unit :=
  match texts with
  | [] => done tt
  | text :: rest => print text;; print_lines rest
  end.

(** [input(prompt)]: the prompt is written, then the next event of standard
    input decides. *)
Definition input (prompt : string) : C string :=
  fun '(self, con) =>
    let out := (stdout con ++ [prompt])%list in
    match stdin con with
    | [] =>
        (Raised (Exception (OtherException "EOFError" "EOF when reading a line")),
         (self, {| stdin := []; stdout := out |}))
    | Line text :: rest =>
        (Done text, (self, {| stdin := rest; stdout := out |}))
    | Interrupt :: rest =>
        (Raised KeyboardInterrupt, (self, {| stdin := rest; stdout := out |}))
    end.

(** [s * n] *)
Fixpoint repeat_string (s : string) (n : nat) : string :=
  match n with
  | O => EmptyString
  | S n => s +:+ repeat_string s n
  end.

(** [f"{i:3d}"] *)
Definition format_3d (i : Z) : string :=
  let digits := str_int i in
  repeat_string " " (3 - String.length digits) +:+ digits.

(** [l[-10:]] *)
Definition last_ten {A} (l : list A) : list A := drop (length l - 10) l.

Definition string_in (s : string) (l : list string) : bool :=
  existsb (String.eqb s) l.

Section Session.

Context (H : Host) (str_strip str_lower : string -> string).

Definition show_welcome : C unit :=
  shown ← self_welcome_shown;
  if negb shown then
    print_lines
      [repeat_string "=" 60;
       "🔢 欢迎使用 Python 计算器 🔢";
       repeat_string "=" 60;
       "📋 支持的运算：";
       "   • 基本运算：+, -, *, /, %, ** (幂运算)";
       "   • 高级运算：sqrt() (开方), sin(), cos(), tan()";
       "   • 对数函数：log() (自然对数), log10() (常用对数)";
       "   • 括号：() 支持优先级计算";
       nl +:+ "💡 使用示例：";
       "   2 + 3 * 4";
       "   sqrt(16) + sin(pi/2)";
       "   log(100) / log(10)";
       nl +:+ "📝 其他命令：";
       "   history - 查看计算历史";
       "   clear   - 清除历史记录";
       "   quit/exit - 退出程序";
       repeat_string "=" 60];;
    set_welcome_shown true
  else done tt.

Definition show_menu : C unit :=
  print (nl +:+ repeat_string "=" 40);;
  print "📊 计算历史记录：";;
  h ← self_history;
  match h with
  | _ :: _ =>
      print_lines
        (imap (fun i record =>
                 "   " +:+ str_int (Z.of_nat (S i)) +:+ ". " +:+ record)
           (last_ten h))
  | [] => print "   (暂无历史记录)"
  end;;
  print (repeat_string "=" 40).

Definition get_user_input : C string :=
  try_catch
    (expression ← input (nl +:+ "🔸 请输入计算表达式 (输入 'quit' 退出): ");
     let expression := str_strip expression in
     done (str_lower expression))
    (fun r =>
       match r with
       | KeyboardInterrupt => Some (done "quit")
       | _ => None
       end).

Definition validate_expression (expression : string) : C bool :=
  match expression with
  | EmptyString => print "❌ 错误：输入不能为空";; done false
  | _ =>
      if string_in (str_lower expression) ["quit"; "exit"; "history"; "clear"]
      then done true
      else done true
  end.

(** [self.evaluator.eval(expression)] *)
Definition evaluator_eval (expression : string) : C value :=
  fun '(self, con) =>
    let '(r, ev) := SafeExpressionEvaluator.eval H expression (evaluator self) in
    (match r with
     | Ret v => Done v
     | Raise e => Raised (Exception e)
     end,
     ({| history := history self; welcome_shown := welcome_shown self;
         evaluator := ev |}, con)).

(** The two clauses [calculate_basic] and [calculate_advanced] share:
    [except ValueError: raise] and
    [except Exception as e: raise ValueError(...)]. *)
Definition calculate_except (r : raised) : option (C value) :=
  match r with
  | Exception (ValueError _) => Some (throw r)
  | Exception e => Some (throw (Exception (ValueError ("❌ 错误：" +:+ str_exn e))))
  | KeyboardInterrupt => None
  end.

Definition calculate_basic (expression : string) : C value :=
  try_catch (result ← evaluator_eval expression; done result)
    calculate_except.

Definition calculate_advanced (expression : string) : C value :=
  try_catch (result ← evaluator_eval expression; done result)
    calculate_except.

Definition calculate (expression : string) : C value :=
  let advanced_functions := ["sqrt"; "sin"; "cos"; "tan"; "log"; "log10"] in
  if existsb (fun func => contains func (str_lower expression))
       advanced_functions
  then calculate_advanced expression
  else calculate_basic expression.

Definition add_to_history (expression : string) (result : value) : C unit :=
  result_str ← pure (format_result result);
  let record := expression +:+ " = " +:+ result_str in
  h ← self_history;
  set_history (h ++ [record])%list.

Definition show_history : C unit :=
  h ← self_history;
  match h with
  | [] => print (nl +:+ "📝 暂无历史记录")
  | _ :: _ =>
      print (nl +:+ repeat_string "=" 60);;
      print "📊 完整计算历史记录";;
      print (repeat_string "=" 60);;
      print_lines
        (imap (fun i record =>
                 format_3d (Z.of_nat (S i)) +:+ ". " +:+ record) h);;
      print (repeat_string "=" 60)
  end.

Definition clear_history : C unit :=
  set_history [];;
  print (nl +:+ "✅ 历史记录已清除").

(** How one turn of the loop of [run] ends. *)
Inductive control : Type := Continue | Break.

(** [isinstance(e, EOFError)] *)
Definition is_EOFError (e : exn) : bool :=
  match e with
  | OtherException cls _ => String.eqb cls "EOFError"
  | _ => false
  end.

(** The clauses of the [try] in the loop of [run], in their order. *)
Definition run_except (r : raised) : option (C control) :=
  match r with
  | KeyboardInterrupt =>
      Some (print (nl +:+ nl +:+ "👋 程序被用户中断，再见！");; done Break)
  | Exception e =>
      if is_EOFError e then
        Some (print (nl +:+ nl +:+ "👋 感谢使用计算器，再见！");; done Break)
      else
        match e with
        | ValueError msg => Some (print (nl +:+ msg);; done Continue)
        | _ =>
            Some (print (nl +:+ "❌ 发生未知错误：" +:+ str_exn e);;
                  done Continue)
        end
  end.

(** The statements of the loop body that follow the input. *)
Definition run_command (expression : string) : C control :=
  if string_in expression ["quit"; "exit"] then
    print (nl +:+ "👋 感谢使用计算器，再见！");; done Break
  else if String.eqb expression "history" then
    show_history;; done Continue
  else if String.eqb expression "clear" then
    clear_history;; done Continue
  else
    valid ← validate_expression expression;
    if negb valid then done Continue
    else
      print (nl +:+ "⏳ 正在计算...");;
      result ← calculate expression;
      result_str ← pure (format_result result);
      print (nl +:+ "✅ 计算结果：" +:+ expression +:+ " = " +:+ result_str);;
      add_to_history expression result;;
      done Continue.

(** The statements of the loop body up to the input. *)
Definition run_prompt : C string :=
  h ← self_history;
  (if (length h mod 3 =? 0)%nat then show_menu else done tt);;
  get_user_input.

(** One turn of the loop: the body of [while True]. *)
Definition run_turn : C control :=
  try_catch (expression ← run_prompt; run_command expression) run_except.

(** The loop, for [fuel] turns at most; [None] when they do not suffice. *)
Fixpoint run_loop (fuel : nat) (w : t * console)
    : option (outcome unit * (t * console)) :=
  match fuel with
  | O => None
  | S fuel =>
      match run_turn w with
      | (Done Continue, w') => run_loop fuel w'
      | (Done Break, w') => Some (Done tt, w')
      | (Raised r, w') => Some (Raised r, w')
      end
  end.

Definition run (fuel : nat) (w : t * console)
    : option (outcome unit * (t * console)) :=
  match show_welcome w with
  | (Done _, w') => run_loop fuel w'
  | (Raised r, w') => Some (Raised r, w')
  end.

(** [main]: a new calculator, then [run]. *)
Definition main (fuel : nat) (con : console)
    : option (outcome unit * (t * console)) :=
  run fuel (__init__, con).

End Session.

End Calculator.

(** ** A reference host

    A host to run the program on: a lexer and a recursive-descent parser for
    the arithmetic part of Python's expression grammar (numbers, names,
    strings, calls, attributes, lists, tuples, dicts, sets, the arithmetic,
    comparison and boolean operators), and a C library that knows its functions where their
    value is an exact binary64 number and reports [EDOM] elsewhere. *)

Module RefHost.

Import Py.

Inductive token : Type :=
| TInt (n : Z)
| TFloat (x : float)
| TImag (x : float)
| TName (s : string)
| TStr (s : string)
| TOp (s : string).

Definition in_range (lo hi : nat) (a : ascii) : bool :=
  let n := nat_of_ascii a in (lo <=? n)%nat && (n <=? hi)%nat.

Definition is_digit (a : ascii) : bool := in_range 48 57 a.
Definition is_name_start (a : ascii) : bool :=
  in_range 65 90 a || in_range 97 122 a || Ascii.eqb a "_".
Definition is_name_char (a : ascii) : bool := is_name_start a || is_digit a.

Fixpoint span (p : ascii -> bool) (s : string) : string * string :=
  match s with
  | EmptyString => (EmptyString, EmptyString)
  | String a rest =>
      if p a then let (x, y) := span p rest in (String a x, y)
      else (EmptyString, s)
  end.

Fixpoint digits_value (acc : Z) (s : string) : Z :=
  match s with
  | EmptyString => acc
  | String a rest =>
      digits_value (acc * 10 + (Z.of_nat (nat_of_ascii a) - 48)) rest
  end.

(** The float nearest to [n / d], for [0 <= n] and [0 < d]. *)
Definition round_ratio (n d : Z) : float :=
  if (n =? 0)%Z then 0%float
  else
    let s := Z.max 0 (64 + Z.log2 d - Z.log2 n) in
    let q := (n * 2 ^ s / d)%Z in
    let sticky := if (n * 2 ^ s mod d =? 0)%Z then 0%Z else 1%Z in
    SF2Prim (binary_normalize prec emax (2 * q + sticky) (- (s + 1)) false).

(** The float nearest to [m * 10 ^ e], for [0 <= m]. *)
Definition decimal_to_float (m e : Z) : float :=
  if (0 <=? e)%Z then float_of_Z (m * 10 ^ e)
  else round_ratio m (10 ^ (- e)).

Definition syntax_error {A} : res A := Raise (SyntaxError "invalid syntax").

Definition string_is_empty (s : string) : bool :=
  match s with EmptyString => true | _ => false end.

(** A number literal at the head of [s]. *)
Definition lex_number (s : string) : res (token * string) :=
  let (ip, r1) := span is_digit s in
  let '(fp, r2, has_dot) :=
    match r1 with
    | String "." r => let (fp, r2) := span is_digit r in (fp, r2, true)
    | _ => (EmptyString, r1, false)
    end in
  if string_is_empty ip && string_is_empty fp then syntax_error
  else
    '(ex, r3, has_exp) ←
      match r2 with
      | String c r =>
          if Ascii.eqb c "e" || Ascii.eqb c "E" then
            let '(sg, r') :=
              match r with
              | String "-" r' => ((-1)%Z, r')
              | String "+" r' => (1%Z, r')
              | _ => (1%Z, r)
              end in
            let (ed, r'') := span is_digit r' in
            if string_is_empty ed then syntax_error
            else Ret ((sg * digits_value 0 ed)%Z, r'', true)
          else Ret (0%Z, r2, false)
      | EmptyString => Ret (0%Z, r2, false)
      end;
    let is_float := has_dot || has_exp in
    let x :=
      decimal_to_float (digits_value 0 (ip +:+ fp))
        (ex - Z.of_nat (String.length fp)) in
    let '(tok, r4) :=
      match r3 with
      | String c r =>
          if Ascii.eqb c "j" || Ascii.eqb c "J" then (TImag x, r)
          else (if is_float then TFloat x else TInt (digits_value 0 ip), r3)
      | EmptyString =>
          (if is_float then TFloat x else TInt (digits_value 0 ip), r3)
      end in
    let leading_zero :=
      negb is_float && (1 <? String.length ip)%nat && starts_with "0" ip
      && negb (digits_value 0 ip =? 0)%Z in
    match r4 with
    | String c _ =>
        if is_name_char c || leading_zero then syntax_error else Ret (tok, r4)
    | EmptyString => if leading_zero then syntax_error else Ret (tok, r4)
    end.

(** The body of a string literal up to the closing quote [q]; no escapes. *)
Fixpoint lex_string (q : ascii) (s : string) : option (string * string) :=
  match s with
  | EmptyString => None
  | String a rest =>
      if Ascii.eqb a q then Some (EmptyString, rest)
      else if Ascii.eqb a "\" || Ascii.eqb a "010" then None
      else
        match lex_string q rest with
        | Some (x, y) => Some (String a x, y)
        | None => None
        end
  end.

Definition two_char_ops : list string :=
  ["**"; "//"; "<="; ">="; "=="; "!="].
Definition one_char_ops : list string :=
  ["+"; "-"; "*"; "/"; "%"; "("; ")"; ","; "."; "="; "<"; ">"; "["; "]";
   "~"; "@"; "{"; "}"; ":"].

Fixpoint lex (fuel : nat) (s : string) : res (list token) :=
  match s with
  | EmptyString => Ret []
  | String a rest =>
      match fuel with
      | O => Raise (OtherException "MemoryError" "")
      | S fuel =>
          if Ascii.eqb a " " || Ascii.eqb a "009" then lex fuel rest
          else if is_digit a
                  || (Ascii.eqb a "."
                      && match rest with
                         | String b _ => is_digit b
                         | EmptyString => false
                         end) then
            '(t, r) ← lex_number s; ts ← lex fuel r; Ret (t :: ts)
          else if is_name_start a then
            let (n, r) := span is_name_char s in
            ts ← lex fuel r; Ret (TName n :: ts)
          else if Ascii.eqb a "'" || Ascii.eqb a "034" then
            match lex_string a rest with
            | Some (x, r) => ts ← lex fuel r; Ret (TStr x :: ts)
            | None => Raise (SyntaxError "unterminated string literal")
            end
          else
            match rest with
            | String b rest' =>
                let two := String a (String b EmptyString) in
                if existsb (String.eqb two) two_char_ops then
                  ts ← lex fuel rest'; Ret (TOp two :: ts)
                else if existsb (String.eqb (String a EmptyString))
                          one_char_ops then
                  ts ← lex fuel rest; Ret (TOp (String a EmptyString) :: ts)
                else syntax_error
            | EmptyString =>
                if existsb (String.eqb (String a EmptyString)) one_char_ops
                then Ret [TOp (String a EmptyString)]
                else syntax_error
            end
      end
  end.

Definition keywords : list string :=
  ["and"; "or"; "not"; "if"; "else"; "lambda"; "in"; "is"; "for"; "yield";
   "await"; "async"; "def"; "class"; "return"; "import"; "from"; "while";
   "with"; "as"; "pass"; "del"; "try"; "except"; "raise"; "global";
   "nonlocal"; "assert"; "break"; "continue"; "elif"; "finally"].

Section Grammar.

(** The parser of a whole expression, for what stands between brackets. *)
Variable expression : list token -> res (AST * list token).

(** [args] of a call, after the opening parenthesis. *)
Fixpoint arguments (fuel : nat) (seen_keyword : bool) (ts : list token)
    : res (list AST * list (option string * AST) * list token) :=
  match fuel with
  | O => syntax_error
  | S fuel =>
      match ts with
      | TOp ")" :: r => Ret ([], [], r)
      | TName k :: TOp "=" :: r =>
          '(v, r1) ← expression r;
          match r1 with
          | TOp ")" :: r2 => Ret ([], [(Some k, v)], r2)
          | TOp "," :: r2 =>
              '(args, kws, r3) ← arguments fuel true r2;
              Ret (args, (Some k, v) :: kws, r3)
          | _ => syntax_error
          end
      | _ =>
          if seen_keyword then
            Raise (SyntaxError "positional argument follows keyword argument")
          else
            '(v, r1) ← expression ts;
            match r1 with
            | TOp ")" :: r2 => Ret ([v], [], r2)
            | TOp "," :: r2 =>
                '(args, kws, r3) ← arguments fuel false r2;
                Ret (v :: args, kws, r3)
            | _ => syntax_error
            end
      end
  end.

(** The elements of a display up to the closing bracket [close]. *)
Fixpoint elements (fuel : nat) (close : string) (ts : list token)
    : res (list token) :=
  match fuel with
  | O => syntax_error
  | S fuel =>
      match ts with
      | TOp o :: r =>
          if String.eqb o close then Ret r
          else
            '(_, r1) ← expression ts;
            match r1 with
            | TOp "," :: r2 => elements fuel close r2
            | TOp o' :: r2 => if String.eqb o' close then Ret r2 else syntax_error
            | _ => syntax_error
            end
      | _ =>
          '(_, r1) ← expression ts;
          match r1 with
          | TOp "," :: r2 => elements fuel close r2
          | TOp o' :: r2 => if String.eqb o' close then Ret r2 else syntax_error
          | _ => syntax_error
          end
      end
  end.

(** The items of a dict display after its first key:
    [: value (, key : value)* [,] }] *)
Fixpoint dict_items (fuel : nat) (ts : list token) : res (list token) :=
  match fuel with
  | O => syntax_error
  | S fuel =>
      match ts with
      | TOp ":" :: r =>
          '(_, r1) ← expression r;
          match r1 with
          | TOp "}" :: r2 => Ret r2
          | TOp "," :: TOp "}" :: r2 => Ret r2
          | TOp "," :: r2 => '(_, r3) ← expression r2; dict_items fuel r3
          | _ => syntax_error
          end
      | _ => syntax_error
      end
  end.

Definition atom (ts : list token) : res (AST * list token) :=
  match ts with
  | TInt n :: r => Ret (Constant (CInt n), r)
  | TFloat x :: r => Ret (Constant (CFloat x), r)
  | TImag x :: r => Ret (Constant (CComplex 0 x), r)
  | TStr s :: r => Ret (Constant (CStr s), r)
  | TName n :: r =>
      if String.eqb n "True" then Ret (Constant (CBool true), r)
      else if String.eqb n "False" then Ret (Constant (CBool false), r)
      else if String.eqb n "None" then Ret (Constant CNone, r)
      else if existsb (String.eqb n) keywords then syntax_error
      else Ret (Name n, r)
  | TOp "(" :: TOp ")" :: r => Ret (Other KTuple, r)
  | TOp "(" :: r =>
      '(e, r1) ← expression r;
      match r1 with
      | TOp ")" :: r2 => Ret (e, r2)
      | TOp "," :: r2 => r3 ← elements (S (length r2)) ")" r2; Ret (Other KTuple, r3)
      | _ => syntax_error
      end
  | TOp "[" :: r => r1 ← elements (S (length r)) "]" r; Ret (Other KList, r1)
  | TOp "{" :: TOp "}" :: r => Ret (Other KDict, r)
  | TOp "{" :: r =>
      '(_, r1) ← expression r;
      match r1 with
      | TOp ":" :: _ => r2 ← dict_items (S (length r1)) r1; Ret (Other KDict, r2)
      | TOp "}" :: r2 => Ret (Other KSet, r2)
      | TOp "," :: r2 => r3 ← elements (S (length r2)) "}" r2; Ret (Other KSet, r3)
      | _ => syntax_error
      end
  | _ => syntax_error
  end.

(** [primary]: an atom and its trailers. *)
Fixpoint trailers (fuel : nat) (a : AST) (ts : list token)
    : res (AST * list token) :=
  match fuel with
  | O => syntax_error
  | S fuel =>
      match ts with
      | TOp "." :: TName n :: r => trailers fuel (Attribute a n) r
      | TOp "(" :: r =>
          '(args, kws, r1) ← arguments (S (length r)) false r;
          trailers fuel (Call a args kws) r1
      | _ => Ret (a, ts)
      end
  end.

Definition primary (ts : list token) : res (AST * list token) :=
  '(a, r) ← atom ts; trailers (S (length r)) a r.

(** [factor: ('+' | '-' | '~') factor | power] and
    [power: primary ['**' factor]] *)
Fixpoint factor (fuel : nat) (ts : list token) : res (AST * list token) :=
  match fuel with
  | O => syntax_error
  | S fuel =>
      match ts with
      | TOp "+" :: r => '(x, r1) ← factor fuel r; Ret (UnaryOp UAdd x, r1)
      | TOp "-" :: r => '(x, r1) ← factor fuel r; Ret (UnaryOp USub x, r1)
      | TOp "~" :: r => '(x, r1) ← factor fuel r; Ret (UnaryOp Invert x, r1)
      | _ =>
          '(b, r1) ← primary ts;
          match r1 with
          | TOp "**" :: r2 =>
              '(e, r3) ← factor fuel r2; Ret (BinOp b Pow e, r3)
          | _ => Ret (b, r1)
          end
      end
  end.

Definition term_op (o : string) : option operator :=
  if String.eqb o "*" then Some Mult
  else if String.eqb o "/" then Some Div
  else if String.eqb o "//" then Some FloorDiv
  else if String.eqb o "%" then Some Mod
  else if String.eqb o "@" then Some MatMult
  else None.

Definition sum_op (o : string) : option operator :=
  if String.eqb o "+" then Some Add
  else if String.eqb o "-" then Some Sub
  else None.

(** A left-associative chain [operand (op operand)*]. *)
Fixpoint chain (operand : list token -> res (AST * list token))
    (op_of : string -> option operator) (fuel : nat) (lhs : AST)
    (ts : list token) : res (AST * list token) :=
  match fuel with
  | O => syntax_error
  | S fuel =>
      match ts with
      | TOp o :: r =>
          match op_of o with
          | Some op =>
              '(x, r1) ← operand r;
              chain operand op_of fuel (BinOp lhs op x) r1
          | None => Ret (lhs, ts)
          end
      | _ => Ret (lhs, ts)
      end
  end.

Definition term (ts : list token) : res (AST * list token) :=
  '(x, r) ← factor (S (length ts)) ts;
  chain (fun ts => factor (S (length ts)) ts) term_op (S (length r)) x r.

Definition sum (ts : list token) : res (AST * list token) :=
  '(x, r) ← term ts; chain term sum_op (S (length r)) x r.

Definition compare_ops : list string := ["<"; ">"; "<="; ">="; "=="; "!="].

(** [comparison: sum (compare_op sum)*]; a chain of comparisons is one
    [Compare] node. *)
Fixpoint comparators (fuel : nat) (ts : list token) : res (list token) :=
  match fuel with
  | O => syntax_error
  | S fuel =>
      match ts with
      | TOp o :: r =>
          if existsb (String.eqb o) compare_ops then
            '(_, r1) ← sum r; comparators fuel r1
          else Ret ts
      | _ => Ret ts
      end
  end.

Definition comparison (ts : list token) : res (AST * list token) :=
  '(x, r) ← sum ts;
  r1 ← comparators (S (length r)) r;
  Ret (if (length r1 <? length r)%nat then Other KCompare else x, r1).

(** [inversion: 'not' inversion | comparison] *)
Fixpoint inversion (fuel : nat) (ts : list token) : res (AST * list token) :=
  match fuel with
  | O => syntax_error
  | S fuel =>
      match ts with
      | TName "not" :: r =>
          '(x, r1) ← inversion fuel r; Ret (UnaryOp Not x, r1)
      | _ => comparison ts
      end
  end.

(** [operand (kw operand)*] for [and] and [or]: one [BoolOp] node. *)
Fixpoint bool_operands (operand : list token -> res (AST * list token))
    (kw : string) (fuel : nat) (ts : list token) : res (list token) :=
  match fuel with
  | O => syntax_error
  | S fuel =>
      match ts with
      | TName k :: r =>
          if String.eqb k kw then
            '(_, r1) ← operand r; bool_operands operand kw fuel r1
          else Ret ts
      | _ => Ret ts
      end
  end.

Definition bool_chain (operand : list token -> res (AST * list token))
    (kw : string) (ts : list token) : res (AST * list token) :=
  '(x, r) ← operand ts;
  r1 ← bool_operands operand kw (S (length r)) r;
  Ret (if (length r1 <? length r)%nat then Other KBoolOp else x, r1).

Definition conjunction : list token -> res (AST * list token) :=
  bool_chain (fun ts => inversion (S (length ts)) ts) "and".

Definition disjunction : list token -> res (AST * list token) :=
  bool_chain conjunction "or".

End Grammar.

Fixpoint expression (fuel : nat) (ts : list token) : res (AST * list token) :=
  match fuel with
  | O => Raise (OtherException "RecursionError"
                  "maximum recursion depth exceeded during compilation")
  | S fuel => disjunction (expression fuel) ts
  end.

Definition ast_parse (source : string) : res AST :=
  if occurs "000" source then
    Raise (ValueError "source code string cannot contain null bytes")
  else if starts_with " " source || starts_with (String "009" "") source then
    Raise (SyntaxError "unexpected indent")
  else
    ts ← lex (String.length source) source;
    '(e, r) ← expression (S (length ts)) ts;
    match r with
    | [] => Ret e
    | _ :: _ => syntax_error
    end.

(** [x ^ n] rounded to the nearest float, for a finite [x] and an integer
    [n]. *)
Definition pow_int (x : float) (n : Z) : float :=
  match Prim2SF x with
  | S754_finite s m e =>
      let a := Z.abs n in
      let r :=
        if (0 <=? n)%Z then
          SF2Prim (binary_normalize prec emax (Z.pos m ^ a) (e * a) false)
        else if (0 <=? e)%Z then round_ratio 1 (Z.pos m ^ a * 2 ^ (e * a))
        else round_ratio (2 ^ (- e * a)) (Z.pos m ^ a) in
      if s && Z.odd n then (- r)%float else r
  | _ => nan
  end.

Local Open Scope float_scope.

Definition unknown : float * errno := (nan, EDOM).

Definition half_pi : float := 0x1.921fb54442d18p+0.

Definition libm_sin (x : float) : float * errno :=
  if (x =? 0) || isnan x then (x, ENONE)
  else if x =? half_pi then (1, ENONE)
  else unknown.

Definition cos_half_pi : float := 0x1.1a62633145c07p-54.

Definition libm_cos (x : float) : float * errno :=
  if x =? 0 then (1, ENONE)
  else if isnan x then (x, ENONE)
  else if x =? half_pi then (cos_half_pi, ENONE)
  else unknown.

(** The tangent of the float nearest to pi/2 is a float: no float is an odd
    multiple of pi/2. *)
Definition libm_tan (x : float) : float * errno :=
  if (x =? 0) || isnan x then (x, ENONE)
  else if x =? half_pi then (0x1.d02967c31cdb5p+53, ENONE)
  else unknown.

Definition libm_log (x : float) : float * errno :=
  if x =? 1 then (0, ENONE) else if isnan x then (x, ENONE) else unknown.

(** [log10] at the powers of ten that are floats, [10 ^ 0] to [10 ^ 22]. *)
Fixpoint log10_search (k : nat) (x : float) : float * errno :=
  if float_of_Z (10 ^ Z.of_nat k) =? x then (float_of_Z (Z.of_nat k), ENONE)
  else
    match k with
    | O => unknown
    | S k' => log10_search k' x
    end.

Definition libm_log10 (x : float) : float * errno :=
  if isnan x then (x, ENONE) else log10_search 22 x.

(** [pow] at the integer exponents and at one half. *)
Definition libm_pow (x y : float) : float * errno :=
  match trunc_Z y with
  | Some n =>
      if floor_eq y then (pow_int x n, ENONE)
      else if y =? 0.5 then (PrimFloat.sqrt x, ENONE)
      else unknown
  | None => unknown
  end.

(** The complex power at the square root of a negative real, in polar
    form as [_Py_c_pow] has it: the modulus is the square root of the
    modulus, the argument is half of pi. *)
Definition c_pow (a b : float * float) : (float * float) * errno :=
  if (fst a <? 0) && (snd a =? 0) && (fst b =? 0.5) && (snd b =? 0) then
    let len := PrimFloat.sqrt (- fst a) in
    ((len * cos_half_pi, len * 1), ENONE)
  else ((nan, nan), ENONE).

(** [str.strip] and [str.lower] on ASCII text. *)
Definition is_space (a : ascii) : bool :=
  Ascii.eqb a " " || in_range 9 13 a || in_range 28 31 a.

Fixpoint lstrip (s : string) : string :=
  match s with
  | EmptyString => EmptyString
  | String a rest => if is_space a then lstrip rest else s
  end.

Fixpoint rstrip (s : string) : string :=
  match s with
  | EmptyString => EmptyString
  | String a rest =>
      match rstrip rest with
      | EmptyString => if is_space a then EmptyString
                       else String a EmptyString
      | rest' => String a rest'
      end
  end.

Definition str_strip (s : string) : string := rstrip (lstrip s).
Definition str_lower (s : string) : string := lower s.

(** The room for the walk: CPython's default limit of 1000 frames, less the
    six in use when [eval] calls [_eval_node] under [main], [run],
    [calculate] and [calculate_basic]. *)
Definition host : Host :=
  {| Py.ast_parse := ast_parse;
     Py.stack_room := 994;
     Py.recursion_message := "maximum recursion depth exceeded";
     Py.libm_sin := libm_sin;
     Py.libm_cos := libm_cos;
     Py.libm_tan := libm_tan;
     Py.libm_log := libm_log;
     Py.libm_log10 := libm_log10;
     Py.libm_pow := libm_pow;
     Py.c_pow := c_pow |}.

End RefHost.

(** ** Vocabulary of the statements *)

Import Py SafeExpressionEvaluator.

(** The function name a call resolves to, when [_eval_node] gets as far as
    counting the arguments: a bare name, or [math.<name>] with the name in
    the table; the name has to be in the table in both cases. *)
Definition callee (self : t) (func : AST) : option (string * math_function) :=
  match func with
  | Name id => f ← allowed_functions self !! id; Some (id, f)
  | Attribute (Name q) attr_ =>
      if String.eqb q "math" then
        f ← allowed_functions self !! attr_; Some (attr_, f)
      else None
  | _ => None
  end.

(** Where a node sits in a tree: under a unary operator, to the left or to
    the right of a binary operator, or as the argument of a call. *)
Inductive ctx : Type :=
| CHole
| CUnaryOp (op : unaryop) (c : ctx)
| CBinOpLeft (c : ctx) (op : operator) (right : AST)
| CBinOpRight (left : AST) (op : operator) (c : ctx)
| CCall (func : AST) (c : ctx).

Fixpoint plug (c : ctx) (node : AST) : AST :=
  match c with
  | CHole => node
  | CUnaryOp op c => UnaryOp op (plug c node)
  | CBinOpLeft c op r => BinOp (plug c node) op r
  | CBinOpRight l op c => BinOp l op (plug c node)
  | CCall func c => Call func [plug c node] []
  end.

(** The walk of [_eval_node], started with [frames] frames, gets to the
    hole and enters the node there, whose own calls have [n] frames: the
    stack has a frame for each node on the way and for the node at the
    hole, what is evaluated before the hole returns, and the calls on the
    way resolve. *)
Fixpoint reaches (H : Host) (self : t) (c : ctx) (frames n : nat) : Prop :=
  match frames with
  | O => False
  | S frames =>
      match c with
      | CHole => frames = n
      | CUnaryOp _ c => reaches H self c frames n
      | CBinOpLeft c _ _ => reaches H self c frames n
      | CBinOpRight l _ c =>
          (exists v, _eval_node H frames l self = (Ret v, self)) /\
          reaches H self c frames n
      | CCall func c => is_Some (callee self func) /\ reaches H self c frames n
      end
  end.




(** A number that is exactly zero, of either sign. *)
Definition is_zero (v : value) : bool :=
  match v with
  | VFloat x => (x =? 0)%float
  | VComplex re im => (re =? 0)%float && (im =? 0)%float
  end.

(** A C function has no value at [x]: an invalid argument (not a number out
    of a number) or a pole (infinite out of finite). *)
Definition no_value (func : float -> float * errno) (x : float) : bool :=
  let r := fst (func x) in
  (isnan r && negb (isnan x)) || (isinf r && isfinite x).

(** The operators [_eval_node] has a branch for. *)
Definition unary_supported (op : unaryop) : bool :=
  match op with UAdd | USub => true | _ => false end.

Definition binary_supported (op : operator) : bool :=
  match op with
  | Add | Sub | Mult | Div | Mod | Pow => true
  | _ => false
  end.


(** The console after more writes. *)
Definition written (con : Calculator.console) (texts : list string)
    : Calculator.console :=
  {| Calculator.stdin := Calculator.stdin con;
     Calculator.stdout := (Calculator.stdout con ++ texts)%list |}.

(** What [print_lines] writes. *)
Definition printed (texts : list string) : list string :=
  map (fun text => text +:+ Calculator.nl) texts.

(** What [show_menu] writes for a history. *)
Definition menu_records (h : list string) : list string :=
  imap (fun i record => "   " +:+ str_int (Z.of_nat (S i)) +:+ ". " +:+ record)
    (Calculator.last_ten h).

Definition menu_text (h : list string) : list string :=
  printed
    ([Calculator.nl +:+ Calculator.repeat_string "=" 40; "📊 计算历史记录："]
     ++ match h with
        | [] => ["   (暂无历史记录)"]
        | _ :: _ => menu_records h
        end
     ++ [Calculator.repeat_string "=" 40])%list.

(** What [show_history] writes for a history. *)
Definition history_text (h : list string) : list string :=
  match h with
  | [] => printed [Calculator.nl +:+ "📝 暂无历史记录"]
  | _ :: _ =>
      printed
        ([Calculator.nl +:+ Calculator.repeat_string "=" 60;
          "📊 完整计算历史记录";
          Calculator.repeat_string "=" 60]
         ++ imap (fun i record =>
                    Calculator.format_3d (Z.of_nat (S i)) +:+ ". " +:+ record)
              h
         ++ [Calculator.repeat_string "=" 60])%list
  end.

Definition prompt : string :=
  Calculator.nl +:+ "🔸 请输入计算表达式 (输入 'quit' 退出): ".

(** What [show_welcome] writes on a calculator that has not shown it. *)
Definition welcome_text : list string :=
  Calculator.stdout
    (snd (snd (Calculator.show_welcome
                 (Calculator.__init__,
                  {| Calculator.stdin := []; Calculator.stdout := [] |})))).

(** What a turn of the loop writes before it reads: the menu when the
    length of the history is a multiple of three, then the prompt. *)
Definition turn_opening (h : list string) : list string :=
  ((if (length h mod 3 =? 0)%nat then menu_text h else []) ++ [prompt])%list.

Definition farewell : string :=
  Calculator.nl +:+ "👋 感谢使用计算器，再见！" +:+ Calculator.nl.

(** The console after the next event was read and more was written. *)
Definition answered (con : Calculator.console) (texts : list string)
    : Calculator.console :=
  {| Calculator.stdin := tl (Calculator.stdin con);
     Calculator.stdout := (Calculator.stdout con ++ texts)%list |}.

(** What the loop writes for an exception it goes on after. *)
Definition error_text (e : exn) : string :=
  match e with
  | ValueError msg => (Calculator.nl +:+ msg) +:+ Calculator.nl
  | _ =>
      (Calculator.nl +:+ "❌ 发生未知错误：" +:+ str_exn e) +:+ Calculator.nl
  end.

Definition computing : string :=
  Calculator.nl +:+ "⏳ 正在计算..." +:+ Calculator.nl.

Definition result_text (expression display : string) : string :=
  (Calculator.nl +:+ "✅ 计算结果：" +:+ expression +:+ " = " +:+ display)
    +:+ Calculator.nl.

(** The object with another history. *)
Definition with_history (self : Calculator.t) (h : list string)
    : Calculator.t :=
  {| Calculator.history := h;
     Calculator.welcome_shown := Calculator.welcome_shown self;
     Calculator.evaluator := Calculator.evaluator self |}.

(** A text that is neither empty nor one of the four commands of the
    loop. *)
Definition is_expression (text : string) : bool :=
  negb (Calculator.string_in text [""; "quit"; "exit"; "history"; "clear"]).

(** A session of the calculator on the reference host: [main] on a script,
    with one turn more than the script has events. *)
Definition session (script : list Calculator.input_event)
    : option (Calculator.outcome unit * (Calculator.t * Calculator.console)) :=
  Calculator.main RefHost.host RefHost.str_strip RefHost.str_lower
    (S (length script))
    {| Calculator.stdin := script; Calculator.stdout := [] |}.

(** What the evaluator [__init__] builds answers on the reference host. *)
Definition answer (expression : string) : res value :=
  fst (eval RefHost.host expression __init__).

(** ** The walk leaves the evaluator as it found it *)

(** Running a bind whose first part returns, or raises. *)
Lemma bind_ret {A B} (m : M A) (k : A -> M B) (self self' : t) (a : A) :
  m self = (Ret a, self') -> (m ≫= k) self = k a self'.
Proof. intros Hm. unfold mbind, M_bind, bind. now rewrite Hm. Qed.

Lemma bind_raise {A B} (m : M A) (k : A -> M B) (self self' : t) (e : exn) :
  m self = (Raise e, self') -> (m ≫= k) self = (Raise e, self').
Proof. intros Hm. unfold mbind, M_bind, bind. now rewrite Hm. Qed.

(** A method body that only reads: it hands back the object it ran on. *)
Definition read_only {A} (m : M A) : Prop := forall self, snd (m self) = self.

Lemma read_only_bind {A B} (m : M A) (k : A -> M B) :
  read_only m -> (forall a, read_only (k a)) -> read_only (m ≫= k).
Proof.
  intros Hm Hk self. unfold mbind, M_bind, bind.
  specialize (Hm self). destruct (m self) as [[a|e] self']; simpl in *; subst.
  - apply Hk.
  - reflexivity.
Qed.

Lemma read_only_ret {A} (a : A) : read_only (ret a).
Proof. intros self. reflexivity. Qed.

Lemma read_only_raise {A} (e : exn) : read_only (@raise A e).
Proof. intros self. reflexivity. Qed.

Lemma read_only_lift {A} (r : res A) : read_only (lift r).
Proof. intros self. reflexivity. Qed.

Lemma read_only_attr {A} (field : t -> A) : read_only (attr field).
Proof. intros self. reflexivity. Qed.

Lemma read_only_try_except {A} (body : M A) (handler : exn -> M A) :
  read_only body -> (forall e, read_only (handler e)) ->
  read_only (try_except body handler).
Proof.
  intros Hb Hh self. unfold try_except.
  specialize (Hb self). destruct (body self) as [[a|e] self']; simpl in *; subst.
  - reflexivity.
  - apply Hh.
Qed.

Create HintDb read_only.
#[local] Hint Resolve read_only_ret read_only_raise read_only_lift
  read_only_attr : read_only.

(** By induction on the frames: the calls in the body have one less. *)
Lemma _eval_node_read_only (H : Host) (frames : nat) (node : AST) :
  read_only (_eval_node H frames node).
Proof.
  revert node. induction frames as [|frames IH]; intros node; simpl;
    [auto with read_only|].
  destruct node as [c|op x|l op r|func args kws|id|v a|k].
  - destruct c; auto with read_only.
    apply read_only_bind; auto with read_only.
  - apply read_only_bind; [apply IH|].
    intros v. destruct op; auto with read_only.
  - apply read_only_bind; [apply IH|]. intros l'.
    apply read_only_bind; [apply IH|]. intros r'.
    destruct op; auto with read_only.
  - apply read_only_bind.
    + destruct func as [| | | | |v a|]; auto with read_only.
      destruct v; auto with read_only.
      destruct (String.eqb id "math"); auto with read_only.
      apply read_only_bind; auto with read_only.
      intros fns. destruct (fns !! a); auto with read_only.
    + intros func_name. apply read_only_bind; auto with read_only.
      intros fns. destruct (fns !! func_name); auto with read_only.
      destruct (negb _); auto with read_only.
      destruct kws; auto with read_only.
      destruct args as [|arg0 args]; auto with read_only.
      apply read_only_bind; [apply IH|].
      intros arg. apply read_only_bind; auto with read_only.
      intros fns'. destruct (fns' !! func_name); auto with read_only.
  - apply read_only_bind; auto with read_only.
    intros names. destruct (names !! id); auto with read_only.
  - auto with read_only.
  - auto with read_only.
Qed.

Lemma eval_except_read_only (e : exn) : read_only (eval_except e).
Proof.
  destruct e; simpl; auto with read_only.
  destruct (contains _ _); auto with read_only.
Qed.

Lemma eval_read_only (H : Host) (expression : string) :
  read_only (eval H expression).
Proof.
  apply read_only_try_except.
  - apply read_only_bind; auto with read_only.
    intros tree. apply _eval_node_read_only.
  - apply eval_except_read_only.
Qed.

(** ** How [eval] answers, from what the parser and the walk do *)

Lemma eval_parsed_ret (H : Host) (expression : string) (self : t)
    (tree : AST) (v : value) :
  ast_parse H (replace "^" "**" expression) = Ret tree ->
  _eval_node H (stack_room H) tree self = (Ret v, self) ->
  eval H expression self = (Ret v, self).
Proof.
  intros Hp He. unfold eval, try_except, mbind, M_bind, bind, lift.
  now rewrite Hp, He.
Qed.

Lemma eval_parsed_raise (H : Host) (expression : string) (self : t)
    (tree : AST) (e : exn) :
  ast_parse H (replace "^" "**" expression) = Ret tree ->
  _eval_node H (stack_room H) tree self = (Raise e, self) ->
  eval H expression self = eval_except e self.
Proof.
  intros Hp He. unfold eval, try_except, mbind, M_bind, bind, lift.
  now rewrite Hp, He.
Qed.

Lemma eval_parse_raise (H : Host) (expression : string) (self : t) (e : exn) :
  ast_parse H (replace "^" "**" expression) = Raise e ->
  eval H expression self = eval_except e self.
Proof.
  intros Hp. unfold eval, try_except, mbind, M_bind, bind, lift.
  now rewrite Hp.
Qed.

(** ** Calls *)

Ltac step_method :=
  unfold mbind, M_bind, bind, mret, M_ret, ret, raise, lift, attr; simpl.



(** A call with one argument and no keyword evaluates the argument, then
    runs the function of the table on its value. *)
Lemma call_one_argument (H : Host) (n : nat) (self : t) (func arg : AST)
    (name : string) (f : math_function) :
  callee self func = Some (name, f) ->
  _eval_node H (S n) (Call func [arg] []) self =
    match _eval_node H n arg self with
    | (Ret v, self') =>
        match allowed_functions self' !! name with
        | Some f' => (math_call H f' v, self')
        | None => (Raise (OtherException "KeyError" name), self')
        end
    | (Raise e, self') => (Raise e, self')
    end.
Proof.
  intros Hc.
  destruct func as [| | | |id|v a|]; try discriminate Hc.
  - simpl in Hc. destruct (allowed_functions self !! id) eqn:Hl;
      [|discriminate]. injection Hc as <- <-.
    simpl. step_method. rewrite Hl. simpl.
    destruct (_eval_node H n arg self) as [[v|e] self']; [|reflexivity].
    now destruct (allowed_functions self' !! id).
  - destruct v as [| | | |q| |]; try discriminate Hc.
    simpl in Hc. destruct (String.eqb q "math") eqn:Hq; [|discriminate].
    destruct (allowed_functions self !! a) eqn:Hl; [|discriminate].
    injection Hc as <- <-.
    simpl. step_method. rewrite Hq. simpl. rewrite Hl. simpl.
    rewrite Hl. simpl.
    destruct (_eval_node H n arg self) as [[v|e] self']; [|reflexivity].
    now destruct (allowed_functions self' !! a).
Qed.

Lemma callee_lookup (self : t) (func : AST) (name : string)
    (f : math_function) :
  callee self func = Some (name, f) -> allowed_functions self !! name = Some f.
Proof.
  intros Hc.
  destruct func as [| | | |id|v a|]; try discriminate Hc; simpl in Hc.
  - destruct (allowed_functions self !! id) eqn:Hl; [|discriminate].
    now injection Hc as <- <-.
  - destruct v as [| | | |q| |]; try discriminate Hc.
    destruct (String.eqb q "math"); [|discriminate].
    destruct (allowed_functions self !! a) eqn:Hl; [|discriminate].
    now injection Hc as <- <-.
Qed.

Lemma call_returns (H : Host) (n : nat) (self : t) (func arg : AST)
    (name : string) (f : math_function) (v : value) :
  callee self func = Some (name, f) ->
  _eval_node H n arg self = (Ret v, self) ->
  _eval_node H (S n) (Call func [arg] []) self = (math_call H f v, self).
Proof.
  intros Hc Ha. rewrite (call_one_argument H n self func arg name f Hc), Ha.
  now rewrite (callee_lookup self func name f Hc).
Qed.

(** ** An exception goes up to [eval] *)

Lemma raise_propagates (H : Host) (self : t) (c : ctx) (node : AST) (e : exn) :
  forall frames n,
    reaches H self c frames n ->
    _eval_node H (S n) node self = (Raise e, self) ->
    _eval_node H frames (plug c node) self = (Raise e, self).
Proof.
  induction c as [|op c IH|c IH op r|l op c IH|func c IH];
    intros [|frames] n Hr He; try contradiction; cbn [reaches] in Hr.
  - subst n. exact He.
  - cbn [plug _eval_node]. apply bind_raise. now apply (IH frames n).
  - cbn [plug _eval_node]. apply bind_raise. now apply (IH frames n).
  - destruct Hr as [[v Hv] Hr]. cbn [plug _eval_node].
    erewrite bind_ret by exact Hv. apply bind_raise. now apply (IH frames n).
  - destruct Hr as [[[name f] Hc] Hr]. cbn [plug].
    rewrite (call_one_argument H frames self func _ name f Hc).
    now rewrite (IH frames n Hr He).
Qed.

Lemma eval_raise_in_context (H : Host) (expression : string) (self : t)
    (c : ctx) (node : AST) (n : nat) (e : exn) :
  ast_parse H (replace "^" "**" expression) = Ret (plug c node) ->
  reaches H self c (stack_room H) n ->
  _eval_node H (S n) node self = (Raise e, self) ->
  eval H expression self = eval_except e self.
Proof.
  intros Hp Hr He. eapply eval_parsed_raise; [exact Hp|].
  now apply (raise_propagates H self c node e (stack_room H) n).
Qed.

(** ** Facts on binary64 numbers *)

Section FloatFacts.

Local Open Scope float_scope.

Lemma SFcompare_finite_refl (s : bool) (m : positive) (e : Z) :
  SFcompare (S754_finite s m e) (S754_finite s m e) = Some Eq.
Proof.
  simpl. rewrite Z.compare_refl, Pos.compare_cont_refl.
  now destruct s.
Qed.

Lemma Prim2SF_zero : Prim2SF 0 = S754_zero false.
Proof. reflexivity. Qed.

Lemma Prim2SF_infinity : Prim2SF infinity = S754_infinity false.
Proof. reflexivity. Qed.

Lemma Prim2SF_neg_infinity : Prim2SF neg_infinity = S754_infinity true.
Proof. reflexivity. Qed.

Lemma Prim2SF_nan : Prim2SF nan = S754_nan.
Proof. reflexivity. Qed.

Lemma isnan_spec (x : float) :
  isnan x = match Prim2SF x with S754_nan => true | _ => false end.
Proof.
  unfold isnan, is_nan. rewrite FloatAxioms.eqb_spec. unfold SFeqb.
  destruct (Prim2SF x) as [s|s| |s m e].
  - reflexivity.
  - now destruct s.
  - reflexivity.
  - now rewrite SFcompare_finite_refl.
Qed.

Lemma isinf_spec (x : float) :
  isinf x = match Prim2SF x with S754_infinity _ => true | _ => false end.
Proof.
  unfold isinf, is_infinity. rewrite FloatAxioms.eqb_spec, FloatAxioms.abs_spec, Prim2SF_infinity.
  now destruct (Prim2SF x) as [s|s| |s m e].
Qed.

Lemma isfinite_spec (x : float) :
  isfinite x =
    match Prim2SF x with S754_zero _ | S754_finite _ _ _ => true | _ => false end.
Proof.
  unfold isfinite, is_finite.
  change (negb (isnan x || isinf x) = match Prim2SF x with
                                       | S754_zero _ | S754_finite _ _ _ => true
                                       | _ => false
                                       end).
  rewrite isnan_spec, isinf_spec. now destruct (Prim2SF x).
Qed.

Lemma eqb_zero_spec (x : float) :
  (x =? 0) = match Prim2SF x with S754_zero _ => true | _ => false end.
Proof.
  rewrite FloatAxioms.eqb_spec, Prim2SF_zero. unfold SFeqb.
  destruct (Prim2SF x) as [s|s| |s m e]; try reflexivity; now destruct s.
Qed.

Lemma ltb_zero_spec (x : float) :
  (x <? 0) =
    match Prim2SF x with
    | S754_infinity true | S754_finite true _ _ => true
    | _ => false
    end.
Proof.
  rewrite FloatAxioms.ltb_spec, Prim2SF_zero. unfold SFltb.
  destruct (Prim2SF x) as [s|s| |s m e]; try reflexivity; now destruct s.
Qed.

Lemma leb_zero_spec (x : float) :
  (x <=? 0) =
    match Prim2SF x with
    | S754_zero _ | S754_infinity true | S754_finite true _ _ => true
    | _ => false
    end.
Proof.
  rewrite FloatAxioms.leb_spec, Prim2SF_zero. unfold SFleb.
  destruct (Prim2SF x) as [s|s| |s m e]; try reflexivity; now destruct s.
Qed.

Lemma zero_ltb_spec (x : float) :
  (0 <? x) =
    match Prim2SF x with
    | S754_infinity false | S754_finite false _ _ => true
    | _ => false
    end.
Proof.
  rewrite FloatAxioms.ltb_spec, Prim2SF_zero. unfold SFltb.
  destruct (Prim2SF x) as [s|s| |s m e]; try reflexivity; now destruct s.
Qed.

(** Two zeros compare as equal, whatever their signs. *)
Lemma leb_zeros (x y : float) :
  (x =? 0) = true -> (y =? 0) = true -> (x <=? y) = true.
Proof.
  rewrite !eqb_zero_spec, FloatAxioms.leb_spec. unfold SFleb.
  destruct (Prim2SF x); try discriminate.
  destruct (Prim2SF y); try discriminate. reflexivity.
Qed.

Lemma eqb_zero_not_ltb (x : float) : (x =? 0) = true -> (x <? 0) = false.
Proof.
  rewrite eqb_zero_spec, ltb_zero_spec. now destruct (Prim2SF x).
Qed.

(** The square root of a negative number is not a number. *)
Lemma sqrt_negative (x : float) :
  (x <? 0) = true -> isnan (PrimFloat.sqrt x) = true /\ isnan x = false.
Proof.
  rewrite ltb_zero_spec, !isnan_spec, FloatAxioms.sqrt_spec. unfold SF64sqrt.
  destruct (Prim2SF x) as [s|s| |s m e]; try discriminate;
    destruct s; try discriminate; now split.
Qed.

End FloatFacts.

(** ** Division and remainder by zero *)

Lemma c_quot_zero (a b : float * float) :
  (fst b =? 0)%float = true -> (snd b =? 0)%float = true ->
  snd (c_quot a b) = EDOM.
Proof.
  intros Hre Him. unfold c_quot.
  rewrite (eqb_zero_not_ltb _ Hre), (eqb_zero_not_ltb _ Him).
  now rewrite (leb_zeros _ _ Him Hre), Hre.
Qed.

Lemma to_complex_zero (v : value) :
  is_zero v = true ->
  (fst (to_complex v) =? 0)%float = true /\
  (snd (to_complex v) =? 0)%float = true.
Proof.
  destruct v as [x|re im]; simpl.
  - intros Hx. now split.
  - intros Hz. now apply andb_true_iff in Hz.
Qed.

Lemma py_truediv_zero (l r : value) :
  is_zero r = true -> exists msg, py_truediv l r = Raise (ZeroDivisionError msg).
Proof.
  intros Hz.
  assert (Hc : exists msg,
             complex_div (to_complex l) (to_complex r) =
               Raise (ZeroDivisionError msg)).
  { destruct (to_complex_zero r Hz) as [Hre Him].
    pose proof (c_quot_zero (to_complex l) (to_complex r) Hre Him) as Hq.
    unfold complex_div. destruct (c_quot _ _) as [q en]. simpl in Hq.
    subst en. eauto. }
  destruct l as [a|lre lim], r as [b|rre rim]; try exact Hc.
  simpl in Hz |- *. unfold float_div. rewrite Hz. eauto.
Qed.

Lemma py_mod_float_zero (a b : float) :
  (b =? 0)%float = true ->
  py_mod (VFloat a) (VFloat b) = Raise (ZeroDivisionError "float modulo").
Proof. intros Hb. simpl. unfold float_rem. now rewrite Hb. Qed.

(** [%] on a complex operand is a [TypeError], whatever the other one. *)
Lemma py_mod_complex (l r : value) :
  (exists re im, l = VComplex re im) \/ (exists re im, r = VComplex re im) ->
  exists msg, py_mod l r = Raise (TypeError msg).
Proof.
  intros [[re [im ->]]|[re [im ->]]].
  - destruct r; simpl; eauto.
  - destruct l; simpl; eauto.
Qed.

(** ** Division by zero (C4) *)

(** C4.  When [eval] gets to a division whose right operand evaluates to a
    zero (of either sign, real or complex) after its left operand returned,
    it raises the division-by-zero message; no infinity and no NaN comes
    back.  The division may sit anywhere in the tree the walk reaches
    within the frames of the stack. *)
Theorem division_by_zero (H : Host) (self : t) (expression : string)
    (c : ctx) (lhs rhs : AST) (n : nat) (l r : value) :
  ast_parse H (replace "^" "**" expression) = Ret (plug c (BinOp lhs Div rhs)) ->
  reaches H self c (stack_room H) n ->
  _eval_node H n lhs self = (Ret l, self) ->
  _eval_node H n rhs self = (Ret r, self) ->
  is_zero r = true ->
  eval H expression self = (Raise (ValueError division_by_zero_message), self).
Proof.
  intros Hp Hc Hl Hr Hz.
  destruct (py_truediv_zero l r Hz) as [msg Hdiv].
  rewrite (eval_raise_in_context H expression self c (BinOp lhs Div rhs) n
             (ZeroDivisionError msg) Hp Hc).
  - reflexivity.
  - simpl. erewrite bind_ret by exact Hl. erewrite bind_ret by exact Hr.
    unfold lift. now rewrite Hdiv.
Qed.

(** [1/0], and [sqrt(4) + 2/(3-3)] with a zero that is computed, on the
    reference host. *)
Lemma division_by_zero_witness :
  eval RefHost.host "1/0" __init__ =
    (Raise (ValueError division_by_zero_message), __init__) /\
  eval RefHost.host "sqrt(4) + 2/(3-3)" __init__ =
    (Raise (ValueError division_by_zero_message), __init__).
Proof.
  split.
  - apply (division_by_zero RefHost.host __init__ "1/0" CHole
             (Constant (CInt 1)) (Constant (CInt 0)) 993
             (VFloat 1) (VFloat 0)).
    + vm_compute. reflexivity.
    + vm_compute. reflexivity.
    + vm_compute. reflexivity.
    + vm_compute. reflexivity.
    + vm_compute. reflexivity.
  - apply (division_by_zero RefHost.host __init__ "sqrt(4) + 2/(3-3)"
             (CBinOpRight (Call (Name "sqrt") [Constant (CInt 4)] []) Add
                CHole)
             (Constant (CInt 2))
             (BinOp (Constant (CInt 3)) Sub (Constant (CInt 3))) 992
             (VFloat 2) (VFloat 0)).
    + vm_compute. reflexivity.
    + vm_compute. split; [exists (VFloat 2)|]; reflexivity.
    + vm_compute. reflexivity.
    + vm_compute. reflexivity.
    + vm_compute. reflexivity.
Defined.

(** ** Remainder by zero (C10) *)

(** With two floats, a remainder by zero ends as a division by zero does. *)
Lemma remainder_by_zero_float (H : Host) (self : t) (expression : string)
    (c : ctx) (lhs rhs : AST) (n : nat) (a b : float) :
  ast_parse H (replace "^" "**" expression) = Ret (plug c (BinOp lhs Mod rhs)) ->
  reaches H self c (stack_room H) n ->
  _eval_node H n lhs self = (Ret (VFloat a), self) ->
  _eval_node H n rhs self = (Ret (VFloat b), self) ->
  (b =? 0)%float = true ->
  eval H expression self = (Raise (ValueError division_by_zero_message), self).
Proof.
  intros Hp Hc Hl Hr Hz.
  rewrite (eval_raise_in_context H expression self c (BinOp lhs Mod rhs) n
             (ZeroDivisionError "float modulo") Hp Hc).
  - reflexivity.
  - simpl. erewrite bind_ret by exact Hl. erewrite bind_ret by exact Hr.
    unfold lift. now rewrite (py_mod_float_zero a b Hz).
Qed.

(** C10, as the code has it.  When the left operand of [%] evaluates to a
    complex number, a zero on the right does not give the division-by-zero
    message: [%] raises [TypeError] and [eval] reports a syntax error. *)
Theorem remainder_by_zero_complex_left (H : Host) (self : t)
    (expression : string) (c : ctx) (lhs rhs : AST) (n : nat) (re im : float)
    (r : value) :
  ast_parse H (replace "^" "**" expression) = Ret (plug c (BinOp lhs Mod rhs)) ->
  reaches H self c (stack_room H) n ->
  _eval_node H n lhs self = (Ret (VComplex re im), self) ->
  _eval_node H n rhs self = (Ret r, self) ->
  is_zero r = true ->
  eval H expression self = (Raise (ValueError syntax_error_message), self).
Proof.
  intros Hp Hc Hl Hr Hz.
  destruct (py_mod_complex (VComplex re im) r) as [msg Hmod]; [eauto|].
  rewrite (eval_raise_in_context H expression self c (BinOp lhs Mod rhs) n
             (TypeError msg) Hp Hc).
  - reflexivity.
  - simpl. erewrite bind_ret by exact Hl. erewrite bind_ret by exact Hr.
    unfold lift. now rewrite Hmod.
Qed.

(** [((-8)**0.5) % 0] on the reference host. *)
Lemma remainder_by_zero_complex_left_witness :
  eval RefHost.host "((-8)**0.5) % 0" __init__ =
    (Raise (ValueError syntax_error_message), __init__).
Proof.
  apply (remainder_by_zero_complex_left RefHost.host __init__
           "((-8)**0.5) % 0" CHole
           (BinOp (UnaryOp USub (Constant (CInt 8))) Pow
              (Constant (CFloat 0.5)))
           (Constant (CInt 0)) 993
           0x1.8f5a0be038ed7p-53 0x1.6a09e667f3bcdp+1 (VFloat 0)).
  - vm_compute. reflexivity.
  - vm_compute. reflexivity.
  - vm_compute. reflexivity.
  - vm_compute. reflexivity.
  - vm_compute. reflexivity.
Defined.

(** ** Domain errors of the [math] functions (C1) *)

Lemma math_1_no_value (func : float -> float * errno) (x : float) :
  no_value func x = true ->
  math_1 func false x = Raise (ValueError "math domain error").
Proof.
  unfold no_value, math_1. destruct (func x) as [r en]. simpl.
  intros Hn. destruct (isnan r && negb (isnan x)); [reflexivity|].
  simpl in Hn. now rewrite Hn.
Qed.

Lemma libm_sqrt_negative (x : float) :
  (x <? 0)%float = true -> no_value libm_sqrt x = true.
Proof.
  intros Hx. destruct (sqrt_negative x Hx) as [Hr Hnx].
  unfold no_value, libm_sqrt. simpl. now rewrite Hr, Hnx.
Qed.

Lemma m_log_with_nonpositive (log : float -> float * errno) (x : float) :
  (x <=? 0)%float = true -> no_value (m_log_with log) x = true.
Proof.
  intros Hx. rewrite leb_zero_spec in Hx.
  unfold no_value, m_log_with.
  rewrite isfinite_spec, zero_ltb_spec, eqb_zero_spec, (isnan_spec x).
  destruct (Prim2SF x) as [s|s| |s m e]; try discriminate;
    try (destruct s; try discriminate); reflexivity.
Qed.

(** The tangent of an infinity: the C library has none (a NaN, as Annex F
    of the C standard asks), and [math.tan] raises. *)
Lemma tan_of_infinity (H : Host) (x : float) :
  isinf x = true -> isnan (fst (libm_tan H x)) = true ->
  math_1 (libm_tan H) false x = Raise (ValueError "math domain error").
Proof.
  intros Hx Hr. unfold math_1. destruct (libm_tan H x) as [r en].
  simpl in Hr. rewrite Hr.
  assert (Hn : isnan x = false).
  { rewrite isinf_spec in Hx. rewrite isnan_spec. now destruct (Prim2SF x). }
  now rewrite Hn.
Qed.

(** Where the C library has a finite tangent and reports nothing, [math.tan]
    returns it, however large: the float nearest to pi/2 is such a point. *)
Lemma tan_where_defined (H : Host) (x r : float) :
  libm_tan H x = (r, ENONE) -> isfinite r = true ->
  math_call H math_tan (VFloat x) = Ret (VFloat r).
Proof.
  intros Ht Hr. simpl. unfold math_1. rewrite Ht.
  assert (Hn : isnan r = false).
  { rewrite isfinite_spec in Hr. rewrite isnan_spec.
    now destruct (Prim2SF r). }
  assert (Hi : isinf r = false).
  { rewrite isfinite_spec in Hr. rewrite isinf_spec.
    now destruct (Prim2SF r). }
  now rewrite Hn, Hi, Hr.
Qed.

(** The claim as worded fails on the tangent: at the float nearest to pi/2,
    the point the text [tan(pi/2)] names, the C library returns a float of
    about 1.633e16 and [eval] returns it. *)
Lemma tan_near_half_pi_returns :
  eval RefHost.host "tan(pi/2)" __init__ =
    (Ret (VFloat 0x1.d02967c31cdb5p+53), __init__) /\
  isfinite 0x1.d02967c31cdb5p+53 = true /\
  (math_pi / 2 =? RefHost.half_pi)%float = true.
Proof. vm_compute. repeat split. Qed.

(** C1, amended.  On the evaluator [__init__] builds, when [eval] gets to a
    call of [sqrt] whose argument evaluates to a negative float, or of [log]
    or [log10] whose argument evaluates to a float that is zero or negative,
    it raises the domain-error message; so it does for [tan] of an infinity,
    where the C library has no tangent.  Elsewhere [tan] has no undefined
    point: where the C library returns a finite tangent the call returns
    it, whatever its size, and so does [eval] when the call is the whole
    expression. *)
Theorem domain_error (H : Host) (expression : string) (c : ctx)
    (func arg : AST) (name : string) (f : math_function) (n : nat)
    (x : float) :
  ast_parse H (replace "^" "**" expression) = Ret (plug c (Call func [arg] [])) ->
  reaches H __init__ c (stack_room H) n ->
  callee __init__ func = Some (name, f) ->
  _eval_node H n arg __init__ = (Ret (VFloat x), __init__) ->
  ((name = "sqrt" /\ (x <? 0)%float = true) \/
   ((name = "log" \/ name = "log10") /\ (x <=? 0)%float = true) \/
   (name = "tan" /\ isinf x = true /\ isnan (fst (libm_tan H x)) = true) ->
   eval H expression __init__ =
     (Raise (ValueError domain_error_message), __init__)) /\
  (forall r,
     name = "tan" -> libm_tan H x = (r, ENONE) -> isfinite r = true ->
     _eval_node H (S n) (Call func [arg] []) __init__ =
       (Ret (VFloat r), __init__) /\
     (c = CHole -> eval H expression __init__ = (Ret (VFloat r), __init__))).
Proof.
  intros Hp Hc Hcallee Harg.
  pose proof (call_returns H n __init__ func arg name f (VFloat x)
                Hcallee Harg) as Hcall.
  apply callee_lookup in Hcallee. split.
  - intros Hcases.
    rewrite (eval_raise_in_context H expression __init__ c (Call func [arg] [])
               n (ValueError "math domain error") Hp Hc); [reflexivity|].
    rewrite Hcall. f_equal. simpl.
    destruct Hcases as [[-> Hx]|[[[-> | ->] Hx]|[-> [Hx Hr]]]];
      vm_compute in Hcallee; injection Hcallee as <-; simpl.
    + apply math_1_no_value, libm_sqrt_negative, Hx.
    + apply math_1_no_value, m_log_with_nonpositive, Hx.
    + apply math_1_no_value, m_log_with_nonpositive, Hx.
    + now apply tan_of_infinity.
  - intros r -> Ht Hr. vm_compute in Hcallee. injection Hcallee as <-.
    rewrite (tan_where_defined H x r Ht Hr) in Hcall.
    split; [exact Hcall|]. intros ->.
    apply (eval_parsed_ret H expression __init__ _ _ Hp).
    cbn [reaches] in Hc. destruct (stack_room H) as [|m]; [contradiction|].
    cbn [plug reaches] in Hc |- *. now subst m.
Qed.

(** [sqrt(-4)], [log(0)], [math.log10(-1)] and [tan(1e999)] on the reference
    host, and [tan(pi/2)], which returns. *)
Lemma domain_error_witness :
  eval RefHost.host "sqrt(-4)" __init__ =
    (Raise (ValueError domain_error_message), __init__) /\
  eval RefHost.host "log(0)" __init__ =
    (Raise (ValueError domain_error_message), __init__) /\
  eval RefHost.host "1 + math.log10(-1)" __init__ =
    (Raise (ValueError domain_error_message), __init__) /\
  eval RefHost.host "tan(1e999)" __init__ =
    (Raise (ValueError domain_error_message), __init__) /\
  eval RefHost.host "tan(pi/2)" __init__ =
    (Ret (VFloat 0x1.d02967c31cdb5p+53), __init__).
Proof.
  repeat apply conj.
  - apply (proj1 (domain_error RefHost.host "sqrt(-4)" CHole (Name "sqrt")
             (UnaryOp USub (Constant (CInt 4))) "sqrt" math_sqrt 993
             (-4)%float
             ltac:(vm_compute; reflexivity) ltac:(vm_compute; reflexivity)
             ltac:(vm_compute; reflexivity) ltac:(vm_compute; reflexivity))).
    left. split; [reflexivity | vm_compute; reflexivity].
  - apply (proj1 (domain_error RefHost.host "log(0)" CHole (Name "log")
             (Constant (CInt 0)) "log" math_log 993 0%float
             ltac:(vm_compute; reflexivity) ltac:(vm_compute; reflexivity)
             ltac:(vm_compute; reflexivity) ltac:(vm_compute; reflexivity))).
    right. left. split; [now left | vm_compute; reflexivity].
  - apply (proj1 (domain_error RefHost.host "1 + math.log10(-1)"
             (CBinOpRight (Constant (CInt 1)) Add CHole)
             (Attribute (Name "math") "log10")
             (UnaryOp USub (Constant (CInt 1))) "log10" math_log10 992
             (-1)%float
             ltac:(vm_compute; reflexivity)
             ltac:(vm_compute; split; [exists (VFloat 1)|]; reflexivity)
             ltac:(vm_compute; reflexivity) ltac:(vm_compute; reflexivity))).
    right. left. split; [now right | vm_compute; reflexivity].
  - apply (proj1 (domain_error RefHost.host "tan(1e999)" CHole (Name "tan")
             (Constant (CFloat infinity)) "tan" math_tan 993 infinity
             ltac:(vm_compute; reflexivity) ltac:(vm_compute; reflexivity)
             ltac:(vm_compute; reflexivity) ltac:(vm_compute; reflexivity))).
    right. right. repeat split; vm_compute; reflexivity.
  - apply (proj2 (domain_error RefHost.host "tan(pi/2)" CHole (Name "tan")
             (BinOp (Name "pi") Div (Constant (CInt 2))) "tan" math_tan 993
             RefHost.half_pi
             ltac:(vm_compute; reflexivity) ltac:(vm_compute; reflexivity)
             ltac:(vm_compute; reflexivity) ltac:(vm_compute; reflexivity))
             0x1.d02967c31cdb5p+53%float).
    + reflexivity.
    + vm_compute. reflexivity.
    + vm_compute. reflexivity.
    + reflexivity.
Defined.

(** ** A negative base with a fractional exponent (C2) *)

Lemma float_pow_negative_fractional (H : Host) (a b : float) :
  (a <? 0)%float = true -> isfinite a = true ->
  isfinite b = true -> floor_eq b = false ->
  float_pow H a b = complex_pow H (a, 0%float) (b, 0%float).
Proof.
  intros Ha Hfa Hfb Hb. unfold float_pow.
  assert (Hb0 : (b =? 0)%float = false).
  { rewrite eqb_zero_spec. unfold floor_eq in Hb.
    now destruct (Prim2SF b). }
  assert (Hna : isnan a = false).
  { rewrite isfinite_spec in Hfa. rewrite isnan_spec.
    now destruct (Prim2SF a). }
  assert (Hnb : isnan b = false).
  { rewrite isfinite_spec in Hfb. rewrite isnan_spec.
    now destruct (Prim2SF b). }
  assert (Hia : isinf a = false).
  { rewrite isfinite_spec in Hfa. rewrite isinf_spec.
    now destruct (Prim2SF a). }
  assert (Hib : isinf b = false).
  { rewrite isfinite_spec in Hfb. rewrite isinf_spec.
    now destruct (Prim2SF b). }
  assert (Ha0 : (a =? 0)%float = false).
  { rewrite ltb_zero_spec in Ha. rewrite eqb_zero_spec.
    now destruct (Prim2SF a). }
  now rewrite Hb0, Hna, Hnb, Hib, Hia, Ha0, Ha, Hb.
Qed.

(** The three ways [complex_pow] ends. *)
Lemma complex_pow_cases (H : Host) (a b : float * float) :
  (exists re im, complex_pow H a b = Ret (VComplex re im)) \/
  complex_pow H a b =
    Raise (ZeroDivisionError "0.0 to a negative or complex power") \/
  complex_pow H a b = Raise (OverflowError "complex exponentiation").
Proof.
  unfold complex_pow. destruct (c_pow H a b) as [p [| |]]; eauto.
Qed.

(** C2, as the code has it.  When the whole expression is a power whose
    base evaluates to a negative finite float and whose exponent to a
    finite float that is not an integer (both in the frames the stack has
    under the power), [eval] hands the operands to [complex.__pow__]: it
    returns a complex number, or reports a division by zero or an overflow
    of the complex power.  The domain-error message is never the answer. *)
Theorem power_negative_fractional (H : Host) (self : t) (expression : string)
    (lhs rhs : AST) (a b : float) :
  ast_parse H (replace "^" "**" expression) = Ret (BinOp lhs Pow rhs) ->
  _eval_node H (Nat.pred (stack_room H)) lhs self = (Ret (VFloat a), self) ->
  _eval_node H (Nat.pred (stack_room H)) rhs self = (Ret (VFloat b), self) ->
  (a <? 0)%float = true -> isfinite a = true ->
  isfinite b = true -> floor_eq b = false ->
  ((exists re im, eval H expression self = (Ret (VComplex re im), self)) \/
   eval H expression self =
     (Raise (ValueError division_by_zero_message), self) \/
   eval H expression self =
     (Raise (ValueError "❌ 错误：complex exponentiation"), self)) /\
  eval H expression self <> (Raise (ValueError domain_error_message), self).
Proof.
  intros Hp Hl Hr Ha Hfa Hfb Hb.
  assert (Hnode : _eval_node H (stack_room H) (BinOp lhs Pow rhs) self =
                    (complex_pow H (a, 0%float) (b, 0%float), self)).
  { destruct (stack_room H) as [|n]; [discriminate Hl|].
    simpl in Hl, Hr |- *.
    erewrite bind_ret by exact Hl. erewrite bind_ret by exact Hr.
    unfold lift. simpl.
    now rewrite (float_pow_negative_fractional H a b Ha Hfa Hfb Hb). }
  assert (Hcases :
    (exists re im, eval H expression self = (Ret (VComplex re im), self)) \/
    eval H expression self =
      (Raise (ValueError division_by_zero_message), self) \/
    eval H expression self =
      (Raise (ValueError "❌ 错误：complex exponentiation"), self)).
  { destruct (complex_pow_cases H (a, 0%float) (b, 0%float))
      as [[re [im Hc]]|[Hc|Hc]]; rewrite Hc in Hnode.
    - left. exists re, im. now apply (eval_parsed_ret H expression self _ _ Hp).
    - right. left.
      now rewrite (eval_parsed_raise H expression self _ _ Hp Hnode).
    - right. right.
      now rewrite (eval_parsed_raise H expression self _ _ Hp Hnode). }
  split; [exact Hcases|].
  destruct Hcases as [[re [im Hc]]|[Hc|Hc]]; rewrite Hc; discriminate.
Qed.

(** [(-8)**0.5] on the reference host. *)
Lemma power_negative_fractional_witness :
  ((exists re im,
      eval RefHost.host "(-8)**0.5" __init__ = (Ret (VComplex re im), __init__)) \/
   eval RefHost.host "(-8)**0.5" __init__ =
     (Raise (ValueError division_by_zero_message), __init__) \/
   eval RefHost.host "(-8)**0.5" __init__ =
     (Raise (ValueError "❌ 错误：complex exponentiation"), __init__)) /\
  eval RefHost.host "(-8)**0.5" __init__ <>
    (Raise (ValueError domain_error_message), __init__).
Proof.
  apply (power_negative_fractional RefHost.host __init__ "(-8)**0.5"
           (UnaryOp USub (Constant (CInt 8))) (Constant (CFloat 0.5))
           (-8)%float 0.5%float).
  - vm_compute. reflexivity.
  - vm_compute. reflexivity.
  - vm_compute. reflexivity.
  - vm_compute. reflexivity.
  - vm_compute. reflexivity.
  - vm_compute. reflexivity.
  - vm_compute. reflexivity.
Defined.

(** What the reference host answers there: a complex number. *)
Example power_negative_fractional_value :
  eval RefHost.host "(-8)**0.5" __init__ =
    (Ret (VComplex 0x1.8f5a0be038ed7p-53 0x1.6a09e667f3bcdp+1), __init__).
Proof. vm_compute. reflexivity. Qed.

(** ** Syntax outside the whitelist (C3) *)

Lemma _eval_node_total (H : Host) (frames : nat) (node : AST) (self : t) :
  exists r, _eval_node H frames node self = (r, self).
Proof.
  exists (fst (_eval_node H frames node self)).
  rewrite <- (_eval_node_read_only H frames node self) at 3.
  now destruct (_eval_node H frames node self).
Qed.

Lemma eval_except_value_error (e : exn) (self : t) :
  exists msg, eval_except e self = (Raise (ValueError msg), self).
Proof.
  destruct e; simpl; eauto.
  destruct (contains _ _); eauto.
Qed.








(** ** The caret (C5) *)

Lemma append_assoc (s1 s2 s3 : string) :
  (s1 +:+ s2) +:+ s3 = s1 +:+ (s2 +:+ s3).
Proof.
  induction s1 as [|a s1 IH]; [reflexivity|].
  change (String a ((s1 +:+ s2) +:+ s3) = String a (s1 +:+ (s2 +:+ s3))).
  now f_equal.
Qed.

Lemma append_empty_r (s : string) : s +:+ EmptyString = s.
Proof.
  induction s as [|a s IH]; [reflexivity|].
  change (String a (s +:+ EmptyString) = String a s). now f_equal.
Qed.

Lemma replace_app (c : ascii) (by_ s1 s2 : string) :
  replace c by_ (s1 +:+ s2) = replace c by_ s1 +:+ replace c by_ s2.
Proof.
  induction s1 as [|a s1 IH]; simpl; [reflexivity|].
  rewrite IH. destruct (Ascii.eqb a c); [|reflexivity].
  symmetry. apply append_assoc.
Qed.

Lemma replace_char (c a : ascii) (by_ : string) :
  replace c by_ (String a EmptyString) =
    if Ascii.eqb a c then by_ else String a EmptyString.
Proof.
  change (replace c by_ (String a EmptyString))
    with (if Ascii.eqb a c then by_ +:+ EmptyString else String a EmptyString).
  destruct (Ascii.eqb a c); [apply append_empty_r | reflexivity].
Qed.

Lemma occurs_app (c : ascii) (s1 s2 : string) :
  occurs c (s1 +:+ s2) = occurs c s1 || occurs c s2.
Proof.
  induction s1 as [|a s1 IH]; simpl; [reflexivity|].
  now rewrite IH, orb_assoc.
Qed.

Lemma replace_caret_none_left (s : string) :
  occurs "^" (replace "^" "**" s) = false.
Proof.
  induction s as [|a s IH]; [reflexivity|].
  change (replace "^" "**" (String a s))
    with (if Ascii.eqb a "^" then "**" +:+ replace "^" "**" s
          else String a (replace "^" "**" s)).
  destruct (Ascii.eqb a "^") eqn:Ha.
  - now rewrite occurs_app, IH.
  - change (Ascii.eqb a "^" || occurs "^" (replace "^" "**" s) = false).
    now rewrite Ha, IH.
Qed.

Lemma replace_absent (c : ascii) (by_ s : string) :
  occurs c s = false -> replace c by_ s = s.
Proof.
  induction s as [|a s IH]; simpl; [reflexivity|].
  intros Ho. apply orb_false_iff in Ho. destruct Ho as [Ha Hs].
  now rewrite Ha, IH.
Qed.

Lemma replace_caret_idempotent (s : string) :
  replace "^" "**" (replace "^" "**" s) = replace "^" "**" s.
Proof. apply replace_absent, replace_caret_none_left. Qed.

(** C5.  [eval] rewrites the text before it parses it: each ["^"] becomes
    ["**"] and every other character stays, whatever stands around it (the
    rewriting of a concatenation is the concatenation of the rewritings), no
    caret is left, and the answer of [eval] is the walk of the tree the
    parser gives for the rewritten text, through the handlers of [eval]; so
    [eval] answers on a text as on its rewriting.  [2^10] is [1024.0] on a
    host that parses [2**10] as the power of the two literals, whose [pow]
    gives 1024 for 2 and 10 and whose stack has the two frames the walk
    takes. *)
Theorem caret_is_power (H : Host) (self : t) (expression : string) :
  (forall a,
     replace "^" "**" (String a EmptyString) =
       if Ascii.eqb a "^" then "**" else String a EmptyString) /\
  (forall s1 s2,
     replace "^" "**" (s1 +:+ s2) =
       replace "^" "**" s1 +:+ replace "^" "**" s2) /\
  occurs "^" (replace "^" "**" expression) = false /\
  eval H expression self =
    match ast_parse H (replace "^" "**" expression) with
    | Ret tree =>
        match _eval_node H (stack_room H) tree self with
        | (Ret v, self') => (Ret v, self')
        | (Raise e, self') => eval_except e self'
        end
    | Raise e => eval_except e self
    end /\
  eval H expression self = eval H (replace "^" "**" expression) self /\
  (ast_parse H "2**10" =
     Ret (BinOp (Constant (CInt 2)) Pow (Constant (CInt 10))) ->
   libm_pow H 2 10 = (1024%float, ENONE) ->
   (2 <= stack_room H)%nat ->
   eval H "2^10" self = (Ret (VFloat 1024), self)).
Proof.
  split; [|split; [|split; [|split; [|split]]]].
  - intros a. apply replace_char.
  - intros s1 s2. apply replace_app.
  - apply replace_caret_none_left.
  - unfold eval, try_except, mbind, M_bind, bind, lift.
    now destruct (ast_parse H (replace "^" "**" expression)).
  - unfold eval. now rewrite replace_caret_idempotent.
  - intros Hp Hpow Hroom.
    apply (eval_parsed_ret H "2^10" self
             (BinOp (Constant (CInt 2)) Pow (Constant (CInt 10)))).
    + exact Hp.
    + destruct (stack_room H) as [|[|n]]; [lia|lia|].
      simpl. step_method.
      change (float_of_Z 2) with 2%float.
      change (float_of_Z 10) with 10%float.
      unfold float_pow. simpl. now rewrite Hpow.
Qed.

(** [2^10] on the reference host. *)
Lemma caret_is_power_witness :
  eval RefHost.host "2^10" __init__ = (Ret (VFloat 1024), __init__).
Proof.
  apply (proj2 (proj2 (proj2 (proj2 (proj2
           (caret_is_power RefHost.host __init__ "2^10")))))).
  - vm_compute. reflexivity.
  - vm_compute. reflexivity.
  - vm_compute. lia.
Defined.

(** ** The number of arguments (C6) *)






(** ** The [math.] prefix (C7) *)











(** The value both texts have on the reference host. *)
Example math_prefix_value :
  eval RefHost.host "math.sqrt(4)" __init__ = (Ret (VFloat 2), __init__).
Proof. vm_compute. reflexivity. Qed.

(** ** No state between two evaluations (C8) *)

(** C8.  [eval] leaves the evaluator, with its two tables, as it found it,
    and a second evaluation of the same text, run on the object the first
    one left, gives the same value or the same exception. *)
Theorem eval_twice (H : Host) (self : t) (expression : string) :
  snd (eval H expression self) = self /\
  allowed_functions (snd (eval H expression self)) = allowed_functions self /\
  allowed_names (snd (eval H expression self)) = allowed_names self /\
  eval H expression (snd (eval H expression self)) = eval H expression self.
Proof.
  pose proof (eval_read_only H expression self) as Hs.
  now rewrite !Hs.
Qed.

(** The same on the reference host, with both answers in sight. *)
Example eval_twice_value :
  let first := eval RefHost.host "sqrt(16) + 2^3" __init__ in
  let second := eval RefHost.host "sqrt(16) + 2^3" (snd first) in
  first = (Ret (VFloat 12), __init__) /\ second = first.
Proof. vm_compute. split; reflexivity. Qed.

(** ** Formatting (C9) *)

Import Calculator.
Import SafeExpressionEvaluator.

(** C9, as the code has it.  The evaluator can return a float that is not
    finite ([1e999] parses to an infinite one); [format_result] has no
    display for it: the rounding raises [OverflowError] for an infinity and
    [ValueError] for a NaN. *)
Theorem format_result_not_finite (x : float) :
  isfinite x = false ->
  format_result (VFloat x) =
    Raise (if isnan x
           then ValueError "cannot convert float NaN to integer"
           else OverflowError "cannot convert float infinity to integer").
Proof.
  intros Hf. unfold format_result, float_is_integer. rewrite Hf. simpl.
  unfold float_round, round_half_even_Z, long_from_double.
  rewrite isfinite_spec in Hf.
  destruct (Prim2SF x); try discriminate Hf; now destruct (isnan x).
Qed.

(** The infinite float. *)
Lemma format_result_not_finite_witness :
  format_result (VFloat infinity) =
    Raise (OverflowError "cannot convert float infinity to integer").
Proof.
  apply (format_result_not_finite infinity). vm_compute. reflexivity.
Defined.

(** An integer-valued float is displayed as the decimal writing of its
    value, which has no fractional part: the value is the integer both
    [int] and [round] give, the text reads back as that integer and holds no
    point. *)
Lemma uint_string_no_point (d : Decimal.uint) :
  occurs "." (NilEmpty.string_of_uint d) = false.
Proof. induction d; simpl; auto. Qed.

Lemma str_int_no_point (n : Z) : occurs "." (str_int n) = false.
Proof.
  unfold str_int.
  destruct (Z.to_int n) as [d|d]; simpl; destruct d; simpl; auto;
    apply uint_string_no_point.
Qed.

Lemma str_int_reads_back (n : Z) :
  option_map Z.of_int (NilZero.int_of_string (str_int n)) = Some n.
Proof.
  unfold str_int. rewrite NilZero.isi.
  - simpl. now rewrite DecimalZ.of_to.
  - destruct n as [|p|p]; try discriminate.
    simpl. intros [= Hp]. now apply (DecimalPos.Unsigned.to_uint_nonnil p).
  - destruct n as [|p|p]; try discriminate.
    simpl. intros [= Hp]. now apply (DecimalPos.Unsigned.to_uint_nonnil p).
Qed.

Lemma integer_trunc_is_round (x : float) :
  float_is_integer x = true ->
  exists n, trunc_Z x = Some n /\ round_half_even_Z x = Some n.
Proof.
  unfold float_is_integer, floor_eq, trunc_Z, round_half_even_Z.
  rewrite isfinite_spec.
  destruct (Prim2SF x) as [s|s| |s m e]; try discriminate; simpl.
  - eauto.
  - intros Hi. destruct (0 <=? e)%Z eqn:He; [eauto|]. simpl in Hi.
    apply Z.eqb_eq in Hi. rewrite Hi.
    assert (Hd : (0 < 2 ^ (- e))%Z) by (apply Z.pow_pos_nonneg; lia).
    apply Z.ltb_lt in Hd. rewrite Z.mul_0_r, Hd. eauto.
Qed.

Lemma format_result_integer (x : float) :
  float_is_integer x = true ->
  exists n,
    float_int x = Ret n /\ float_round x = Ret n /\
    format_result (VFloat x) = Ret (str_int n) /\
    option_map Z.of_int (NilZero.int_of_string (str_int n)) = Some n /\
    occurs "." (str_int n) = false.
Proof.
  intros Hi. destruct (integer_trunc_is_round x Hi) as [n [Ht Hr]].
  exists n. unfold format_result, float_int, float_round. rewrite Hi, Ht, Hr.
  repeat split; [apply str_int_reads_back | apply str_int_no_point].
Qed.

(** The three displays of a finite result, and the integer next to a result
    that is close to one. *)
Example format_result_values :
  format_result (VFloat 14) = Ret "14" /\
  format_result (VFloat (-3)) = Ret "-3" /\
  format_result (VFloat 0x1.5af1d78b58c4p+66) = Ret "100000000000000000000" /\
  format_result (VFloat 0x1.7fffffffffff9p+1) = Ret "3" /\
  format_result (VFloat 2.5) = Ret "2.5" /\
  format_result (VFloat 0x1.5555555555555p-2) = Ret "0.33333333" /\
  format_result (VFloat 1234567.5) = Ret "1.234568e+06" /\
  format_result (VFloat 0x1.4f8b588e368f1p-17) = Ret "1.000000e-05".
Proof. vm_compute. repeat split. Qed.

(** [1e999] and [1e999-1e999] get to [format_result] on the reference
    host. *)
Example infinity_is_a_result :
  eval RefHost.host "1e999" __init__ = (Ret (VFloat infinity), __init__) /\
  eval RefHost.host "1e999-1e999" __init__ = (Ret (VFloat nan), __init__).
Proof. vm_compute. split; reflexivity. Qed.

(** ** The evaluator on some texts *)

Example precedence : answer "2 + 3 * 4" = Ret (VFloat 14).
Proof. vm_compute. reflexivity. Qed.

Example power_is_right_associative : answer "2 ** 3 ** 2" = Ret (VFloat 512).
Proof. vm_compute. reflexivity. Qed.

Example minus_binds_looser_than_power : answer "-2 ** 2" = Ret (VFloat (-4)).
Proof. vm_compute. reflexivity. Qed.

Example remainder_follows_divisor :
  answer "-7 % 3" = Ret (VFloat 2) /\ answer "7 % -3" = Ret (VFloat (-2)).
Proof. vm_compute. split; reflexivity. Qed.

Example unsupported_function :
  answer "foo(1)" = Raise (ValueError "不支持的函数：foo").
Proof. vm_compute. reflexivity. Qed.

Example undefined_name :
  answer "x + 1" = Raise (ValueError "未定义的名称：x").
Proof. vm_compute. reflexivity. Qed.

Example named_constant : answer "pi" = Ret (VFloat math_pi).
Proof. vm_compute. reflexivity. Qed.

Example boolean_constant : answer "True + 1" = Ret (VFloat 2).
Proof. vm_compute. reflexivity. Qed.

Example large_integer :
  fst (_eval_node RefHost.host 1 (Constant (CInt (10 ^ 400))) __init__) =
    Raise (OverflowError "int too large to convert to float").
Proof. vm_compute. reflexivity. Qed.

(** A sum of 995 terms is one level too deep for the 994 frames of the
    reference host; a sum of 994 terms is not. *)
Example deep_sum :
  let sum (terms : nat) :=
    Nat.iter (terms - 1)
      (fun tree => BinOp tree Add (Constant (CInt 1))) (Constant (CInt 1)) in
  fst (_eval_node RefHost.host 994 (sum 994%nat) __init__) = Ret (VFloat 994) /\
  fst (_eval_node RefHost.host 994 (sum 995%nat) __init__) =
    Raise (RecursionError RefHost.host) /\
  fst (eval_except (RecursionError RefHost.host) __init__) =
    Raise (ValueError "❌ 错误：maximum recursion depth exceeded").
Proof. vm_compute. repeat split. Qed.

(** ** More on the evaluator *)

Lemma eval_outcome (H : Host) (self : t) (expression : string) :
  (exists v, eval H expression self = (Ret v, self)) \/
  (exists msg, eval H expression self = (Raise (ValueError msg), self)).
Proof.
  destruct (ast_parse H (replace "^" "**" expression)) as [tree|e] eqn:Hp.
  - destruct (_eval_node_total H (stack_room H) tree self) as [[v|e] He].
    + left. exists v. now apply (eval_parsed_ret H expression self tree).
    + right. rewrite (eval_parsed_raise H expression self tree e Hp He).
      apply eval_except_value_error.
  - right. rewrite (eval_parse_raise H expression self e Hp).
    apply eval_except_value_error.
Qed.

(** X1.  Whatever the parser and the walk do, [eval] returns a value or
    raises a [ValueError]: no exception of another class leaves it, and the
    evaluator is left as it was. *)
Theorem eval_raises_only_value_error (H : Host) (self : t)
    (expression : string) :
  (exists v, eval H expression self = (Ret v, self)) \/
  (exists msg, eval H expression self = (Raise (ValueError msg), self)).
Proof. apply eval_outcome. Qed.





(** X4.  An operator the evaluator has no branch for is reported by its
    class name, once its operands have been evaluated to values, wherever
    the walk gets to it within the frames of the stack. *)
Theorem unsupported_operator (H : Host) (self : t) (expression : string)
    (c : ctx) (n : nat) :
  reaches H self c (stack_room H) n ->
  (forall op operand v,
     ast_parse H (replace "^" "**" expression) =
       Ret (plug c (UnaryOp op operand)) ->
     unary_supported op = false ->
     _eval_node H n operand self = (Ret v, self) ->
     eval H expression self =
       (Raise (ValueError ("不支持的一元运算符：" +:+ unaryop_name op)), self)) /\
  (forall lhs op rhs l r,
     ast_parse H (replace "^" "**" expression) =
       Ret (plug c (BinOp lhs op rhs)) ->
     binary_supported op = false ->
     _eval_node H n lhs self = (Ret l, self) ->
     _eval_node H n rhs self = (Ret r, self) ->
     eval H expression self =
       (Raise (ValueError ("不支持的二元运算符：" +:+ operator_name op)), self)).
Proof.
  intros Hc. split.
  - intros op operand v Hp Hop Hv.
    rewrite (eval_raise_in_context H expression self c (UnaryOp op operand)
               n (ValueError ("不支持的一元运算符：" +:+ unaryop_name op))
               Hp Hc).
    + destruct op; try discriminate Hop; reflexivity.
    + simpl. erewrite bind_ret by exact Hv.
      destruct op; try discriminate Hop; reflexivity.
  - intros lhs op rhs l r Hp Hop Hl Hr.
    rewrite (eval_raise_in_context H expression self c (BinOp lhs op rhs)
               n (ValueError ("不支持的二元运算符：" +:+ operator_name op))
               Hp Hc).
    + destruct op; try discriminate Hop; reflexivity.
    + simpl. erewrite bind_ret by exact Hl. erewrite bind_ret by exact Hr.
      destruct op; try discriminate Hop; reflexivity.
Qed.

(** [~1] and [7 // 2] on the reference host. *)
Lemma unsupported_operator_witness :
  eval RefHost.host "~1" __init__ =
    (Raise (ValueError "不支持的一元运算符：Invert"), __init__) /\
  eval RefHost.host "7 // 2" __init__ =
    (Raise (ValueError "不支持的二元运算符：FloorDiv"), __init__).
Proof.
  split.
  - apply (proj1 (unsupported_operator RefHost.host __init__ "~1" CHole 993
                    ltac:(vm_compute; reflexivity))
             Invert (Constant (CInt 1)) (VFloat 1)).
    + vm_compute. reflexivity.
    + reflexivity.
    + vm_compute. reflexivity.
  - apply (proj2 (unsupported_operator RefHost.host __init__ "7 // 2" CHole
                    993 ltac:(vm_compute; reflexivity))
             (Constant (CInt 7)) FloorDiv (Constant (CInt 2))
             (VFloat 7) (VFloat 2)).
    + vm_compute. reflexivity.
    + reflexivity.
    + vm_compute. reflexivity.
    + vm_compute. reflexivity.
Defined.

(** X5.  Zero raised to a negative finite power is reported as a division
    by zero, wherever the walk gets to the power within the frames of the
    stack. *)
Theorem zero_to_negative_power (H : Host) (self : t) (expression : string)
    (c : ctx) (lhs rhs : AST) (n : nat) (a b : float) :
  ast_parse H (replace "^" "**" expression) = Ret (plug c (BinOp lhs Pow rhs)) ->
  reaches H self c (stack_room H) n ->
  _eval_node H n lhs self = (Ret (VFloat a), self) ->
  _eval_node H n rhs self = (Ret (VFloat b), self) ->
  (a =? 0)%float = true -> (b <? 0)%float = true -> isfinite b = true ->
  eval H expression self = (Raise (ValueError division_by_zero_message), self).
Proof.
  intros Hp Hc Hl Hr Ha Hb Hfb.
  rewrite (eval_raise_in_context H expression self c (BinOp lhs Pow rhs) n
             (ZeroDivisionError "0.0 cannot be raised to a negative power")
             Hp Hc).
  - reflexivity.
  - simpl. erewrite bind_ret by exact Hl. erewrite bind_ret by exact Hr.
    unfold lift. simpl. unfold float_pow.
    assert (Hb0 : (b =? 0)%float = false).
    { rewrite ltb_zero_spec in Hb. rewrite eqb_zero_spec.
      now destruct (Prim2SF b) as [| [] | | [] ? ?]. }
    assert (Hna : isnan a = false).
    { rewrite eqb_zero_spec in Ha. rewrite isnan_spec.
      now destruct (Prim2SF a). }
    assert (Hia : isinf a = false).
    { rewrite eqb_zero_spec in Ha. rewrite isinf_spec.
      now destruct (Prim2SF a). }
    assert (Hnb : isnan b = false).
    { rewrite isfinite_spec in Hfb. rewrite isnan_spec.
      now destruct (Prim2SF b). }
    assert (Hib : isinf b = false).
    { rewrite isfinite_spec in Hfb. rewrite isinf_spec.
      now destruct (Prim2SF b). }
    now rewrite Hb0, Hna, Hnb, Hib, Hia, Ha, Hb.
Qed.

(** [0 ** -1] and [1 + (3-3) ** -0.5] on the reference host. *)
Lemma zero_to_negative_power_witness :
  eval RefHost.host "0 ** -1" __init__ =
    (Raise (ValueError division_by_zero_message), __init__) /\
  eval RefHost.host "1 + (3-3) ** -0.5" __init__ =
    (Raise (ValueError division_by_zero_message), __init__).
Proof.
  split.
  - apply (zero_to_negative_power RefHost.host __init__ "0 ** -1" CHole
             (Constant (CInt 0)) (UnaryOp USub (Constant (CInt 1))) 993
             0%float (-1)%float).
    + vm_compute. reflexivity.
    + vm_compute. reflexivity.
    + vm_compute. reflexivity.
    + vm_compute. reflexivity.
    + vm_compute. reflexivity.
    + vm_compute. reflexivity.
    + vm_compute. reflexivity.
  - apply (zero_to_negative_power RefHost.host __init__ "1 + (3-3) ** -0.5"
             (CBinOpRight (Constant (CInt 1)) Add CHole)
             (BinOp (Constant (CInt 3)) Sub (Constant (CInt 3)))
             (UnaryOp USub (Constant (CFloat 0.5))) 992
             0%float (-0.5)%float).
    + vm_compute. reflexivity.
    + vm_compute. split; [exists (VFloat 1)|]; reflexivity.
    + vm_compute. reflexivity.
    + vm_compute. reflexivity.
    + vm_compute. reflexivity.
    + vm_compute. reflexivity.
    + vm_compute. reflexivity.
Defined.





(** The overflow of a product is an infinity. *)
Example product_overflows_silently :
  answer "1e308 * 10" = Ret (VFloat infinity).
Proof. vm_compute. reflexivity. Qed.

(** ** The session *)

Section SessionFacts.

Import Calculator.

Context (H : Host) (str_strip str_lower : string -> string).

Lemma C_bind_done {A B} (m : C A) (k : A -> C B) (w w' : Calculator.t * console)
    (a : A) :
  m w = (Done a, w') -> (m ≫= k) w = k a w'.
Proof. intros Hm. unfold mbind, C_bind, and_then. now rewrite Hm. Qed.

Lemma C_bind_raised {A B} (m : C A) (k : A -> C B)
    (w w' : Calculator.t * console) (r : raised) :
  m w = (Raised r, w') -> (m ≫= k) w = (Raised r, w').
Proof. intros Hm. unfold mbind, C_bind, and_then. now rewrite Hm. Qed.

Lemma written_nil (con : console) : written con [] = con.
Proof. destruct con. unfold written. simpl. now rewrite app_nil_r. Qed.

Lemma written_written (con : console) (a b : list string) :
  written (written con a) b = written con (a ++ b).
Proof. unfold written. simpl. now rewrite app_assoc. Qed.

Lemma print_run (text : string) (self : Calculator.t) (con : console) :
  print text (self, con) = (Done tt, (self, written con [text +:+ nl])).
Proof. reflexivity. Qed.

Lemma print_lines_run (texts : list string) (self : Calculator.t)
    (con : console) :
  print_lines texts (self, con) = (Done tt, (self, written con (printed texts))).
Proof.
  revert con. induction texts as [|text rest IH]; intros con.
  - simpl. now rewrite written_nil.
  - simpl. erewrite C_bind_done by apply print_run.
    rewrite IH, written_written. reflexivity.
Qed.

Lemma show_menu_run (self : Calculator.t) (con : console) :
  show_menu (self, con) =
    (Done tt, (self, written con (menu_text (history self)))).
Proof.
  unfold show_menu.
  erewrite C_bind_done by apply print_run.
  erewrite C_bind_done by apply print_run.
  erewrite C_bind_done by reflexivity.
  cbn [fst]. unfold menu_text. destruct (history self) as [|r h].
  - erewrite C_bind_done by apply print_run.
    rewrite print_run, !written_written. reflexivity.
  - erewrite C_bind_done by apply print_lines_run.
    rewrite print_run, !written_written. unfold printed, menu_records.
    rewrite !map_app. reflexivity.
Qed.

Lemma show_history_run (self : Calculator.t) (con : console) :
  show_history (self, con) =
    (Done tt, (self, written con (history_text (history self)))).
Proof.
  unfold show_history.
  erewrite C_bind_done by reflexivity.
  cbn [fst]. unfold history_text. destruct (history self) as [|r h].
  - apply print_run.
  - erewrite C_bind_done by apply print_run.
    erewrite C_bind_done by apply print_run.
    erewrite C_bind_done by apply print_run.
    erewrite C_bind_done by apply print_lines_run.
    rewrite print_run, !written_written. unfold printed.
    rewrite !map_app. reflexivity.
Qed.

Lemma answered_written (con : console) (a b : list string) :
  answered (written con a) b = answered con (a ++ b).
Proof. unfold answered, written. simpl. now rewrite app_assoc. Qed.

Lemma written_answered (con : console) (a b : list string) :
  written (answered con a) b = answered con (a ++ b).
Proof. unfold answered, written. simpl. now rewrite app_assoc. Qed.

Lemma show_welcome_run (self : Calculator.t) (con : console) :
  show_welcome (self, con) =
    (Done tt,
     ({| history := history self; welcome_shown := true;
         evaluator := evaluator self |},
      written con (if welcome_shown self then [] else welcome_text))).
Proof.
  unfold show_welcome.
  erewrite C_bind_done by reflexivity. cbn [fst].
  destruct self as [h [|] ev]; cbn [negb welcome_shown history evaluator].
  - now rewrite written_nil.
  - erewrite C_bind_done by apply print_lines_run. reflexivity.
Qed.

(** The three ways [get_user_input] ends, by the next event. *)
Lemma get_user_input_line (self : Calculator.t) (con : console)
    (text : string) (rest : list input_event) :
  stdin con = Line text :: rest ->
  get_user_input str_strip str_lower (self, con) =
    (Done (str_lower (str_strip text)), (self, answered con [prompt])).
Proof.
  intros Hin. unfold get_user_input, try_catch, mbind, C_bind, and_then, input.
  unfold answered. rewrite Hin. reflexivity.
Qed.

Lemma get_user_input_interrupt (self : Calculator.t) (con : console)
    (rest : list input_event) :
  stdin con = Interrupt :: rest ->
  get_user_input str_strip str_lower (self, con) =
    (Done "quit", (self, answered con [prompt])).
Proof.
  intros Hin. unfold get_user_input, try_catch, mbind, C_bind, and_then, input.
  unfold answered. rewrite Hin. reflexivity.
Qed.

Lemma get_user_input_eof (self : Calculator.t) (con : console) :
  stdin con = [] ->
  get_user_input str_strip str_lower (self, con) =
    (Raised (Exception (OtherException "EOFError" "EOF when reading a line")),
     (self, answered con [prompt])).
Proof.
  intros Hin. unfold get_user_input, try_catch, mbind, C_bind, and_then, input.
  unfold answered. rewrite Hin. reflexivity.
Qed.

Lemma menu_step (self : Calculator.t) (con : console) :
  (if (length (history self) mod 3 =? 0)%nat then show_menu else done tt)
    (self, con) =
  (Done tt,
   (self,
    written con
      (if (length (history self) mod 3 =? 0)%nat
       then menu_text (history self) else []))).
Proof.
  destruct (length (history self) mod 3 =? 0)%nat.
  - apply show_menu_run.
  - now rewrite written_nil.
Qed.

(** The loop body up to the input, by the next event. *)
Lemma run_prompt_line (self : Calculator.t) (con : console)
    (text : string) (rest : list input_event) :
  stdin con = Line text :: rest ->
  run_prompt str_strip str_lower (self, con) =
    (Done (str_lower (str_strip text)),
     (self, answered con (turn_opening (history self)))).
Proof.
  intros Hin. unfold run_prompt.
  erewrite C_bind_done by reflexivity. cbn [fst].
  erewrite C_bind_done by apply menu_step.
  erewrite get_user_input_line by exact Hin.
  now rewrite answered_written.
Qed.

Lemma run_prompt_interrupt (self : Calculator.t) (con : console)
    (rest : list input_event) :
  stdin con = Interrupt :: rest ->
  run_prompt str_strip str_lower (self, con) =
    (Done "quit", (self, answered con (turn_opening (history self)))).
Proof.
  intros Hin. unfold run_prompt.
  erewrite C_bind_done by reflexivity. cbn [fst].
  erewrite C_bind_done by apply menu_step.
  erewrite get_user_input_interrupt by exact Hin.
  now rewrite answered_written.
Qed.

Lemma run_prompt_eof (self : Calculator.t) (con : console) :
  stdin con = [] ->
  run_prompt str_strip str_lower (self, con) =
    (Raised (Exception (OtherException "EOFError" "EOF when reading a line")),
     (self, answered con (turn_opening (history self)))).
Proof.
  intros Hin. unfold run_prompt.
  erewrite C_bind_done by reflexivity. cbn [fst].
  erewrite C_bind_done by apply menu_step.
  erewrite get_user_input_eof by exact Hin.
  now rewrite answered_written.
Qed.

Lemma validate_expression_run (expression : string) (self : Calculator.t)
    (con : console) :
  validate_expression str_lower expression (self, con) =
    (Done (negb (String.eqb expression "")),
     (self,
      written con
        (if String.eqb expression "" then printed ["❌ 错误：输入不能为空"]
         else []))).
Proof.
  unfold validate_expression. destruct expression as [|a expression].
  - reflexivity.
  - cbn [String.eqb negb].
    destruct (string_in _ _); now rewrite written_nil.
Qed.

Lemma calculate_run (expression : string) (self : Calculator.t)
    (con : console) :
  calculate H str_lower expression (self, con) =
    (match fst (SafeExpressionEvaluator.eval H expression (evaluator self)) with
     | Ret v => Done v
     | Raise e => Raised (Exception e)
     end, (self, con)).
Proof.
  assert (Hboth : calculate H str_lower expression =
                  calculate_basic H expression).
  { unfold calculate. now destruct (existsb _ _). }
  rewrite Hboth.
  unfold calculate_basic, try_catch, mbind, C_bind, and_then, evaluator_eval.
  destruct (eval_outcome H (evaluator self) expression) as [[v Hv]|[msg Hv]];
    rewrite Hv; destruct self; reflexivity.
Qed.

Lemma add_to_history_run (expression display : string) (result : value)
    (self : Calculator.t) (con : console) :
  format_result result = Ret display ->
  add_to_history expression result (self, con) =
    (Done tt,
     (with_history self (history self ++ [expression +:+ " = " +:+ display]),
      con)).
Proof.
  intros Hf. unfold add_to_history. rewrite Hf. reflexivity.
Qed.

Lemma is_expression_spec (expression : string) :
  is_expression expression = true ->
  String.eqb expression "" = false /\
  string_in expression ["quit"; "exit"] = false /\
  String.eqb expression "history" = false /\
  String.eqb expression "clear" = false.
Proof using Type.
  unfold is_expression, string_in. cbn [existsb].
  rewrite negb_true_iff, !orb_false_iff.
  intros (-> & -> & -> & -> & -> & _). repeat split.
Qed.

(** The statements after the input, on a text that is no command: the
    outcome follows the evaluator and [format_result]. *)
Lemma run_command_expression (expression : string) (self : Calculator.t)
    (con : console) :
  is_expression expression = true ->
  run_command H str_lower expression (self, con) =
    match fst (SafeExpressionEvaluator.eval H expression (evaluator self)) with
    | Raise e => (Raised (Exception e), (self, written con [computing]))
    | Ret v =>
        match format_result v with
        | Raise e => (Raised (Exception e), (self, written con [computing]))
        | Ret display =>
            (Done Continue,
             (with_history self
                (history self ++ [expression +:+ " = " +:+ display]),
              written con [computing; result_text expression display]))
        end
    end.
Proof using H str_lower.
  intros He. apply is_expression_spec in He as (He & Hq & Hh & Hc).
  unfold run_command. rewrite Hq, Hh, Hc.
  erewrite C_bind_done by apply validate_expression_run.
  rewrite He. cbn [negb]. rewrite written_nil.
  erewrite C_bind_done by apply print_run.
  destruct (fst (SafeExpressionEvaluator.eval H expression (evaluator self)))
    as [v|e] eqn:Hev.
  - erewrite C_bind_done by (rewrite calculate_run, Hev; reflexivity).
    destruct (format_result v) as [display|e] eqn:Hf.
    + erewrite C_bind_done by reflexivity.
      erewrite C_bind_done by apply print_run.
      erewrite C_bind_done by (apply add_to_history_run; exact Hf).
      rewrite written_written. reflexivity.
    + erewrite C_bind_raised by reflexivity.
      reflexivity.
  - erewrite C_bind_raised by (rewrite calculate_run, Hev; reflexivity).
    reflexivity.
Qed.

(** What the loop does with an exception that is no [EOFError]. *)
Lemma run_except_goes_on (e : exn) (self : Calculator.t) (con : console) :
  is_EOFError e = false ->
  exists handler,
    run_except (Exception e) = Some handler /\
    handler (self, con) = (Done Continue, (self, written con [error_text e])).
Proof.
  intros He. unfold run_except. rewrite He.
  destruct e; eexists; (split; [reflexivity|]);
    erewrite C_bind_done by apply print_run; reflexivity.
Qed.

Lemma format_result_raises (v : value) (e : exn) :
  format_result v = Raise e -> is_EOFError e = false.
Proof.
  destruct v as [x|re im]; [|now intros [= <-]].
  unfold format_result, float_int, float_round, float_sub_int, int_to_float,
    long_from_double.
  intros Hf.
  repeat match type of Hf with
         | context [match ?c with _ => _ end] => destruct c; simpl in Hf
         | context [if ?c then _ else _] => destruct c; simpl in Hf
         end;
    try discriminate Hf; injection Hf as <-; reflexivity.
Qed.

Lemma eval_raises_value_error (expression : string)
    (ev : SafeExpressionEvaluator.t) (e : exn) :
  fst (SafeExpressionEvaluator.eval H expression ev) = Raise e ->
  exists msg, e = ValueError msg.
Proof.
  destruct (eval_outcome H ev expression) as [[v Hv]|[msg Hv]];
    rewrite Hv; simpl; intros [= <-]. now exists msg.
Qed.

(** Every turn of the loop ends, on its own terms: what it raises inside is
    caught. *)
Lemma run_turn_ends (self : Calculator.t) (con : console) :
  exists c self' texts,
    run_turn H str_strip str_lower (self, con) =
      (Done c,
       (self', answered con (turn_opening (history self) ++ texts))) /\
    evaluator self' = evaluator self /\
    welcome_shown self' = welcome_shown self /\
    (c = Break -> self' = self) /\
    (stdin con = [] -> c = Break) /\
    (history self' = history self \/ history self' = [] \/
     exists record, history self' = (history self ++ [record])%list).
Proof.
  unfold run_turn, try_catch.
  destruct (stdin con) as [|[text|] rest] eqn:Hin.
  - erewrite C_bind_raised by (apply run_prompt_eof; exact Hin).
    cbn [run_except is_EOFError String.eqb Ascii.eqb Bool.eqb andb].
    erewrite C_bind_done by apply print_run.
    rewrite written_answered. exists Break, self. eexists.
    split; [reflexivity|]. auto 10.
  - erewrite C_bind_done by (eapply run_prompt_line; exact Hin).
    set (expression := str_lower (str_strip text)).
    set (con1 := answered con (turn_opening (history self))).
    assert (Hgo : forall e texts,
               is_EOFError e = false ->
               exists c self' texts',
                 match run_except (Exception e) with
                 | Some h => h (self, written con1 texts)
                 | None => (Raised (Exception e), (self, written con1 texts))
                 end =
                   (Done c,
                    (self',
                     answered con (turn_opening (history self) ++ texts'))) /\
                 evaluator self' = evaluator self /\
                 welcome_shown self' = welcome_shown self /\
                 (c = Break -> self' = self) /\
                 history self' = history self).
    { intros e texts He.
      destruct (run_except_goes_on e self (written con1 texts) He)
        as [handler [-> ->]].
      unfold con1. rewrite written_written, written_answered.
      exists Continue, self. eexists. split; [reflexivity|].
      repeat split; auto; discriminate. }
    destruct (is_expression expression) eqn:He.
    + rewrite (run_command_expression expression self con1 He).
      destruct (fst (SafeExpressionEvaluator.eval H expression
                       (evaluator self))) as [v|e] eqn:Hev.
      * destruct (format_result v) as [display|e] eqn:Hf.
        -- unfold con1. rewrite written_answered.
           exists Continue. eexists. eexists. split; [reflexivity|].
           repeat split; try discriminate. right. right. eexists. reflexivity.
        -- destruct (Hgo e [computing] (format_result_raises v e Hf))
             as (c & self' & texts & -> & ? & ? & ? & ?).
           exists c, self', texts. repeat split; auto; discriminate.
      * destruct (eval_raises_value_error _ _ _ Hev) as [msg ->].
        destruct (Hgo (ValueError msg) [computing] eq_refl)
          as (c & self' & texts & -> & ? & ? & ? & ?).
        exists c, self', texts. repeat split; auto; discriminate.
    + unfold run_command.
      destruct (string_in expression ["quit"; "exit"]) eqn:Hq.
      { erewrite C_bind_done by apply print_run.
        unfold con1. rewrite written_answered.
        exists Break, self. eexists. split; [reflexivity|].
        repeat split; auto; discriminate. }
      destruct (String.eqb expression "history") eqn:Hh.
      { erewrite C_bind_done by apply show_history_run.
        unfold con1. rewrite written_answered.
        exists Continue, self. eexists. split; [reflexivity|].
        repeat split; auto; discriminate. }
      destruct (String.eqb expression "clear") eqn:Hc.
      { unfold clear_history.
        erewrite C_bind_done;
          [|erewrite C_bind_done by reflexivity; apply print_run].
        unfold con1. rewrite written_answered.
        exists Continue. eexists. eexists. split; [reflexivity|].
        repeat split; auto; discriminate. }
      erewrite C_bind_done by apply validate_expression_run.
      destruct (String.eqb expression "") eqn:Hn.
      * cbn [negb]. unfold con1. rewrite written_answered.
        exists Continue, self. eexists. split; [reflexivity|].
        repeat split; auto; discriminate.
      * exfalso. revert He. unfold is_expression, string_in in *.
        cbn [existsb] in *. rewrite Hn, Hh, Hc. cbn [orb] in *.
        rewrite Hq. discriminate.
  - erewrite C_bind_done by (eapply run_prompt_interrupt; exact Hin).
    unfold run_command. cbn [string_in existsb String.eqb Ascii.eqb Bool.eqb
                              andb orb].
    erewrite C_bind_done by apply print_run.
    rewrite written_answered. exists Break, self. eexists.
    split; [reflexivity|]. repeat split; auto; discriminate.
Qed.

(** The loop ends when it has a turn more than there are events to read. *)
Lemma run_loop_ends (fuel : nat) :
  forall (self : Calculator.t) (con : console),
    (length (stdin con) < fuel)%nat ->
    exists self' con',
      run_loop H str_strip str_lower fuel (self, con) =
        Some (Done tt, (self', con')) /\
      evaluator self' = evaluator self /\
      welcome_shown self' = welcome_shown self /\
      (length (history self') <= length (history self) + length (stdin con))%nat /\
      (exists texts,
         stdout con' =
           (stdout con ++ turn_opening (history self) ++ texts)%list) /\
      (exists k, stdin con' = drop k (stdin con)).
Proof.
  induction fuel as [|fuel IH]; intros self con Hlen; [lia|].
  cbn [run_loop].
  destruct (run_turn_ends self con)
    as (c & self1 & texts & -> & Hev & Hw & Hb & Heof & Hh).
  destruct c.
  - destruct (stdin con) as [|event rest] eqn:Hin;
      [now specialize (Heof eq_refl)|].
    destruct (IH self1 (answered con (turn_opening (history self) ++ texts)))
      as (self' & con' & -> & Hev' & Hw' & Hh' & [texts' Hout] & [k Hk]).
    { unfold answered. cbn [stdin]. rewrite Hin. simpl in *. lia. }
    exists self', con'. split; [reflexivity|].
    unfold answered in *. cbn [stdin stdout] in *. rewrite Hin in *.
    cbn [tl length] in *.
    split; [congruence|]. split; [congruence|]. split.
    + destruct Hh as [Hh|[Hh|[record Hh]]]; rewrite Hh in Hh';
        try rewrite length_app in Hh'; simpl in Hh'; lia.
    + split.
      * exists (texts ++ turn_opening (history self1) ++ texts')%list.
        now rewrite Hout, <- !app_assoc.
      * exists (S k). exact Hk.
  - rewrite (Hb eq_refl).
    exists self, (answered con (turn_opening (history self) ++ texts)).
    split; [reflexivity|]. split; [reflexivity|]. split; [reflexivity|].
    split; [lia|]. split.
    + now exists texts.
    + exists 1%nat. unfold answered. cbn [stdin]. now destruct (stdin con).
Qed.

End SessionFacts.

(** X8.  [calculate] gives what the evaluator gives, whichever of
    [calculate_basic] and [calculate_advanced] it picks: the value, or the
    [ValueError] of the evaluator with its message; the calculator and the
    console are left as they were. *)
Theorem calculate_is_eval (H : Host) (str_lower : string -> string)
    (expression : string) (self : Calculator.t) (con : console) :
  (exists v,
     eval H expression (evaluator self) = (Ret v, evaluator self) /\
     calculate H str_lower expression (self, con) = (Done v, (self, con))) \/
  (exists msg,
     eval H expression (evaluator self) =
       (Raise (ValueError msg), evaluator self) /\
     calculate H str_lower expression (self, con) =
       (Raised (Exception (ValueError msg)), (self, con))).
Proof.
  rewrite calculate_run.
  destruct (eval_outcome H (evaluator self) expression) as [[v Hv]|[msg Hv]];
    rewrite Hv; [left; exists v|right; exists msg]; split; reflexivity.
Qed.

(** X9.  The welcome is written once: [show_welcome] writes its seventeen
    lines when the flag is unset and sets it, writes nothing when the flag is
    set, and a second call changes nothing at all; the history and the
    evaluator are not touched. *)
Theorem show_welcome_once (self : Calculator.t) (con : console) :
  exists self' texts,
    show_welcome (self, con) = (Done tt, (self', written con texts)) /\
    welcome_shown self' = true /\
    history self' = history self /\
    evaluator self' = evaluator self /\
    length texts = (if welcome_shown self then 0 else 17)%nat /\
    forall con', show_welcome (self', con') = (Done tt, (self', con')).
Proof.
  eexists. eexists. split; [apply show_welcome_run|].
  split; [reflexivity|]. split; [reflexivity|]. split; [reflexivity|].
  split; [now destruct (welcome_shown self)|]. intros con'.
  rewrite show_welcome_run. cbn [welcome_shown history evaluator].
  now rewrite written_nil.
Qed.

(** X10.  The menu shows the ten most recent records at most, oldest first,
    numbered from 1, between its two header lines and its footer; with an
    empty history it shows the placeholder line.  The calculator is left as
    it was. *)
Theorem show_menu_last_ten (self : Calculator.t) (con : console) :
  exists records,
    show_menu (self, con) =
      (Done tt,
       (self,
        written con
          (printed
             ([nl +:+ repeat_string "=" 40; "📊 计算历史记录："]
              ++ records ++ [repeat_string "=" 40])))) /\
    (history self = [] -> records = ["   (暂无历史记录)"]) /\
    (history self <> [] ->
     length records = Nat.min 10 (length (history self)) /\
     forall (i : nat) (record : string),
       history self !! (length (history self) - length records + i)%nat =
         Some record ->
       records !! i =
         Some ("   " +:+ str_int (Z.of_nat (i + 1)) +:+ ". " +:+ record)).
Proof.
  rewrite show_menu_run. unfold menu_text.
  destruct (history self) as [|r h] eqn:Hh.
  - eexists. split; [reflexivity|]. split; [reflexivity|]. now intros [].
  - exists (menu_records (r :: h)). split; [reflexivity|].
    split; [discriminate|]. intros _.
    assert (Hlen : length (menu_records (r :: h)) =
                   Nat.min 10 (length (r :: h))).
    { unfold menu_records, last_ten. rewrite length_imap, length_drop. lia. }
    split; [exact Hlen|]. intros i record Hi. rewrite Hlen in Hi.
    unfold menu_records, last_ten.
    rewrite list_lookup_imap, lookup_drop.
    replace (length (r :: h) - 10 + i)%nat
      with (length (r :: h) - Nat.min 10 (length (r :: h)) + i)%nat by lia.
    rewrite Hi. cbn [fmap option_fmap option_map].
    now replace (i + 1)%nat with (S i) by lia.
Qed.

(** X11.  A turn of the loop never raises: whatever is typed, and whatever
    the evaluator and the display do with it, the turn ends by going on or
    by leaving the loop.  It reads one event (none at end of file); it only
    adds to what was written, first the menu when the length of the history
    is a multiple of three (so at every turn while that holds, whether
    anything was calculated or not) and the prompt; it leaves the evaluator
    and the welcome flag alone, and leaves the history as it was, empty, or
    one record longer.  A turn that leaves the loop changes nothing in the
    calculator, and at end of file the turn leaves the loop. *)
Theorem turn_never_raises (H : Host) (str_strip str_lower : string -> string)
    (self : Calculator.t) (con : console) :
  exists c self' texts,
    run_turn H str_strip str_lower (self, con) =
      (Done c,
       (self',
        {| stdin := tl (stdin con);
           stdout :=
             (stdout con
              ++ (if (length (history self) mod 3 =? 0)%nat
                  then menu_text (history self) else [])
              ++ [prompt] ++ texts)%list |})) /\
    evaluator self' = evaluator self /\
    welcome_shown self' = welcome_shown self /\
    (c = Break -> self' = self) /\
    (stdin con = [] -> c = Break) /\
    (history self' = history self \/ history self' = [] \/
     exists record, history self' = (history self ++ [record])%list).
Proof.
  destruct (run_turn_ends H str_strip str_lower self con)
    as (c & self' & texts & Hrun & Hrest).
  exists c, self', texts. split; [|exact Hrest].
  rewrite Hrun. unfold answered, turn_opening.
  now rewrite <- !app_assoc.
Qed.

(** X12.  [run] ends without raising once it has more turns than there are
    events to read.  It writes the welcome if the calculator has not shown
    it, then the opening of the first turn, then the rest; the welcome flag
    is then set, the evaluator is the one the calculator had, the history
    has grown by one record for each event at most, and what is left to read
    is an end of what there was. *)
Theorem run_ends (H : Host) (str_strip str_lower : string -> string)
    (fuel : nat) (self : Calculator.t) (con : console) :
  (length (stdin con) < fuel)%nat ->
  exists self' con',
    run H str_strip str_lower fuel (self, con) =
      Some (Done tt, (self', con')) /\
    evaluator self' = evaluator self /\
    welcome_shown self' = true /\
    (length (history self') <= length (history self) + length (stdin con))%nat /\
    (exists texts,
       stdout con' =
         (stdout con
          ++ (if welcome_shown self then [] else welcome_text)
          ++ turn_opening (history self) ++ texts)%list) /\
    (exists k, stdin con' = drop k (stdin con)).
Proof.
  intros Hlen. unfold run. rewrite show_welcome_run.
  destruct (run_loop_ends H str_strip str_lower fuel
              {| history := history self; welcome_shown := true;
                 evaluator := evaluator self |}
              (written con (if welcome_shown self then [] else welcome_text))
              Hlen)
    as (self' & con' & -> & Hev & Hw & Hh & [texts' Hout] & Hin).
  exists self', con'. split; [reflexivity|].
  split; [exact Hev|]. split; [exact Hw|]. split; [exact Hh|].
  split; [|exact Hin].
  exists texts'. rewrite Hout. unfold written. cbn [stdout history].
  now rewrite <- !app_assoc.
Qed.

Lemma run_ends_witness :
  exists self' con',
    run RefHost.host RefHost.str_strip RefHost.str_lower 3
      (Calculator.__init__,
       {| stdin := [Line "1 + 1"; Line "quit"]; stdout := [] |}) =
      Some (Done tt, (self', con')) /\
    evaluator self' = evaluator Calculator.__init__ /\
    welcome_shown self' = true /\
    (length (history self') <= length (history Calculator.__init__) + 2)%nat /\
    (exists texts,
       stdout con' =
         ([] ++ welcome_text ++ turn_opening [] ++ texts)%list) /\
    (exists k, stdin con' = drop k [Line "1 + 1"; Line "quit"]).
Proof.
  apply (run_ends RefHost.host RefHost.str_strip RefHost.str_lower 3
           Calculator.__init__
           {| stdin := [Line "1 + 1"; Line "quit"]; stdout := [] |}).
  simpl. lia.
Defined.

(** X13.  An interrupt at the prompt ends the session as the commands
    [quit] and [exit] do: the turn writes the farewell of the command and
    leaves the loop, with the calculator as it was.  The farewell the loop
    has for an interrupt is not the one written. *)
Theorem interrupt_is_quit (H : Host) (str_strip str_lower : string -> string)
    (self : Calculator.t) (con : console) (event : input_event)
    (rest : list input_event) :
  stdin con = event :: rest ->
  match event with
  | Interrupt => True
  | Line text =>
      string_in (str_lower (str_strip text)) ["quit"; "exit"] = true
  end ->
  run_turn H str_strip str_lower (self, con) =
    (Done Break,
     (self, answered con (turn_opening (history self) ++ [farewell]))).
Proof.
  intros Hin Hev. unfold run_turn, try_catch.
  destruct event as [text|].
  - erewrite C_bind_done by (eapply run_prompt_line; exact Hin).
    unfold run_command. rewrite Hev.
    erewrite C_bind_done by apply print_run.
    now rewrite written_answered.
  - erewrite C_bind_done by (eapply run_prompt_interrupt; exact Hin).
    unfold run_command.
    cbn [string_in existsb String.eqb Ascii.eqb Bool.eqb andb orb].
    erewrite C_bind_done by apply print_run.
    now rewrite written_answered.
Qed.

Lemma interrupt_is_quit_witness :
  run_turn RefHost.host RefHost.str_strip RefHost.str_lower
    (Calculator.__init__, {| stdin := [Interrupt]; stdout := [] |}) =
  run_turn RefHost.host RefHost.str_strip RefHost.str_lower
    (Calculator.__init__, {| stdin := [Line " Exit "]; stdout := [] |}).
Proof.
  rewrite (interrupt_is_quit RefHost.host RefHost.str_strip RefHost.str_lower
             Calculator.__init__ {| stdin := [Interrupt]; stdout := [] |}
             Interrupt [] eq_refl I).
  rewrite (interrupt_is_quit RefHost.host RefHost.str_strip RefHost.str_lower
             Calculator.__init__ {| stdin := [Line " Exit "]; stdout := [] |}
             (Line " Exit ") [] eq_refl eq_refl).
  reflexivity.
Defined.

(** X14.  At end of file the turn writes the farewell after two newlines
    and leaves the loop, with the calculator as it was. *)
Theorem end_of_file_ends_session (H : Host)
    (str_strip str_lower : string -> string) (self : Calculator.t)
    (con : console) :
  stdin con = [] ->
  run_turn H str_strip str_lower (self, con) =
    (Done Break,
     (self,
      answered con (turn_opening (history self) ++ [nl +:+ farewell]))).
Proof.
  intros Hin. unfold run_turn, try_catch.
  erewrite C_bind_raised by (apply run_prompt_eof; exact Hin).
  cbn [run_except is_EOFError String.eqb Ascii.eqb Bool.eqb andb].
  erewrite C_bind_done by apply print_run.
  now rewrite written_answered.
Qed.

Lemma end_of_file_ends_session_witness :
  run_turn RefHost.host RefHost.str_strip RefHost.str_lower
    (Calculator.__init__, {| stdin := []; stdout := [] |}) =
    (Done Break,
     (Calculator.__init__,
      answered {| stdin := []; stdout := [] |}
        (turn_opening [] ++ [nl +:+ farewell]))).
Proof.
  apply (end_of_file_ends_session RefHost.host RefHost.str_strip
           RefHost.str_lower Calculator.__init__
           {| stdin := []; stdout := [] |}).
  reflexivity.
Defined.

(** X15.  A calculation that fails writes the message of the evaluator
    after the line that announces the calculation, records nothing, and the
    loop goes on: the exception is a [ValueError] and the calculator is as
    it was.  The text evaluated is what was typed, stripped and in lower
    case. *)
Theorem failed_calculation_keeps_history (H : Host)
    (str_strip str_lower : string -> string) (self : Calculator.t)
    (con : console) (text : string) (rest : list input_event) (e : exn) :
  stdin con = Line text :: rest ->
  is_expression (str_lower (str_strip text)) = true ->
  fst (eval H (str_lower (str_strip text)) (evaluator self)) = Raise e ->
  (exists msg, e = ValueError msg /\ error_text e = (nl +:+ msg) +:+ nl) /\
  run_turn H str_strip str_lower (self, con) =
    (Done Continue,
     (self,
      answered con
        (turn_opening (history self) ++ [computing; error_text e]))).
Proof.
  intros Hin He Hev.
  destruct (eval_raises_value_error H _ _ _ Hev) as [msg ->].
  split; [now exists msg|].
  unfold run_turn, try_catch.
  erewrite C_bind_done by (eapply run_prompt_line; exact Hin).
  rewrite run_command_expression by exact He. rewrite Hev.
  cbn [run_except is_EOFError].
  erewrite C_bind_done by apply print_run.
  now rewrite written_written, written_answered.
Qed.

Lemma failed_calculation_keeps_history_witness :
  (exists msg,
     ValueError division_by_zero_message = ValueError msg /\
     error_text (ValueError division_by_zero_message) = (nl +:+ msg) +:+ nl) /\
  run_turn RefHost.host RefHost.str_strip RefHost.str_lower
    (Calculator.__init__, {| stdin := [Line "1/0"]; stdout := [] |}) =
    (Done Continue,
     (Calculator.__init__,
      answered {| stdin := [Line "1/0"]; stdout := [] |}
        (turn_opening [] ++
         [computing; error_text (ValueError division_by_zero_message)]))).
Proof.
  apply (failed_calculation_keeps_history RefHost.host RefHost.str_strip
           RefHost.str_lower Calculator.__init__
           {| stdin := [Line "1/0"]; stdout := [] |} "1/0" []).
  - reflexivity.
  - vm_compute. reflexivity.
  - vm_compute. reflexivity.
Defined.

(** X16.  A calculation whose result has a display writes the result line
    after the line that announces the calculation and appends the record
    [expression = display] to the history, and the loop goes on; nothing
    else of the calculator changes.  The expression shown and recorded is
    what was typed, stripped and in lower case. *)
Theorem result_is_recorded (H : Host)
    (str_strip str_lower : string -> string) (self : Calculator.t)
    (con : console) (text : string) (rest : list input_event) (v : value)
    (display : string) :
  stdin con = Line text :: rest ->
  is_expression (str_lower (str_strip text)) = true ->
  fst (eval H (str_lower (str_strip text)) (evaluator self)) = Ret v ->
  format_result v = Ret display ->
  run_turn H str_strip str_lower (self, con) =
    (Done Continue,
     (with_history self
        (history self ++ [str_lower (str_strip text) +:+ " = " +:+ display]),
      answered con
        (turn_opening (history self) ++
         [computing; result_text (str_lower (str_strip text)) display]))).
Proof.
  intros Hin He Hev Hf. unfold run_turn, try_catch.
  erewrite C_bind_done by (eapply run_prompt_line; exact Hin).
  rewrite run_command_expression by exact He. rewrite Hev, Hf.
  now rewrite written_answered.
Qed.

Lemma result_is_recorded_witness :
  run_turn RefHost.host RefHost.str_strip RefHost.str_lower
    (Calculator.__init__,
     {| stdin := [Line "  SQRT(16) + 1 "]; stdout := [] |}) =
    (Done Continue,
     (with_history Calculator.__init__ ["sqrt(16) + 1 = 5"],
      answered {| stdin := [Line "  SQRT(16) + 1 "]; stdout := [] |}
        (turn_opening [] ++
         [computing; result_text "sqrt(16) + 1" "5"]))).
Proof.
  apply (result_is_recorded RefHost.host RefHost.str_strip RefHost.str_lower
           Calculator.__init__
           {| stdin := [Line "  SQRT(16) + 1 "]; stdout := [] |}
           "  SQRT(16) + 1 " [] (VFloat 5) "5").
  - reflexivity.
  - vm_compute. reflexivity.
  - vm_compute. reflexivity.
  - vm_compute. reflexivity.
Defined.

(** X17.  A result that [format_result] has no display for is lost: the
    turn announces the calculation, then writes the error of the display (as
    an unknown error, or bare when it is a [ValueError]), records nothing
    and goes on.  So it is with an infinite result, a NaN and a complex
    number. *)
Theorem result_without_display_is_lost (H : Host)
    (str_strip str_lower : string -> string) (self : Calculator.t)
    (con : console) (text : string) (rest : list input_event) (v : value)
    (e : exn) :
  stdin con = Line text :: rest ->
  is_expression (str_lower (str_strip text)) = true ->
  fst (eval H (str_lower (str_strip text)) (evaluator self)) = Ret v ->
  format_result v = Raise e ->
  run_turn H str_strip str_lower (self, con) =
    (Done Continue,
     (self,
      answered con
        (turn_opening (history self) ++ [computing; error_text e]))).
Proof.
  intros Hin He Hev Hf. unfold run_turn, try_catch.
  erewrite C_bind_done by (eapply run_prompt_line; exact Hin).
  rewrite run_command_expression by exact He. rewrite Hev, Hf.
  destruct (run_except_goes_on e self
              (written (answered con (turn_opening (history self)))
                 [computing])
              (format_result_raises v e Hf)) as [handler [-> ->]].
  now rewrite written_written, written_answered.
Qed.

Lemma result_without_display_is_lost_witness :
  run_turn RefHost.host RefHost.str_strip RefHost.str_lower
    (Calculator.__init__, {| stdin := [Line "(-8)**0.5"]; stdout := [] |}) =
    (Done Continue,
     (Calculator.__init__,
      answered {| stdin := [Line "(-8)**0.5"]; stdout := [] |}
        (turn_opening [] ++
         [computing;
          error_text
            (OtherException "AttributeError"
               "'complex' object has no attribute 'is_integer'")]))).
Proof.
  apply (result_without_display_is_lost RefHost.host RefHost.str_strip
           RefHost.str_lower Calculator.__init__
           {| stdin := [Line "(-8)**0.5"]; stdout := [] |} "(-8)**0.5" []
           (VComplex 0x1.8f5a0be038ed7p-53 0x1.6a09e667f3bcdp+1)).
  - reflexivity.
  - vm_compute. reflexivity.
  - vm_compute. reflexivity.
  - reflexivity.
Defined.

(** X18.  [validate_expression] rejects the empty text and nothing else: on
    the empty text it writes its message and returns [False]; on any other
    text, the names of the commands included, it returns [True] and writes
    nothing, whatever [str.lower] gives.  The calculator is left as it
    was. *)
Theorem validate_expression_only_empty (str_lower : string -> string)
    (expression : string) (self : Calculator.t) (con : console) :
  validate_expression str_lower expression (self, con) =
    if String.eqb expression ""
    then (Done false,
          (self, written con ["❌ 错误：输入不能为空" +:+ nl]))
    else (Done true, (self, con)).
Proof.
  rewrite validate_expression_run.
  destruct (String.eqb expression ""); [reflexivity|].
  now rewrite written_nil.
Qed.

(** X19.  [show_history] lists the whole history, one line for each record
    in its order, numbered from 1 with the number right-aligned in three
    columns, under three header lines and over a footer; on an empty history
    it writes the placeholder alone.  The calculator is left as it was. *)
Theorem show_history_lists_all (self : Calculator.t) (con : console) :
  exists lines,
    show_history (self, con) = (Done tt, (self, written con (printed lines))) /\
    (history self = [] -> lines = [nl +:+ "📝 暂无历史记录"]) /\
    (history self <> [] ->
     exists records,
       lines =
         ([nl +:+ repeat_string "=" 60; "📊 完整计算历史记录";
           repeat_string "=" 60] ++ records ++ [repeat_string "=" 60])%list /\
       length records = length (history self) /\
       forall (i : nat) (record : string),
         history self !! i = Some record ->
         records !! i =
           Some (repeat_string " "
                   (3 - String.length (str_int (Z.of_nat (i + 1))))
                 +:+ str_int (Z.of_nat (i + 1)) +:+ ". " +:+ record)).
Proof.
  rewrite show_history_run. unfold history_text.
  destruct (history self) as [|r h] eqn:Hh.
  - eexists. split; [reflexivity|]. split; [reflexivity|]. now intros [].
  - eexists. split; [reflexivity|]. split; [discriminate|]. intros _.
    eexists. split; [reflexivity|]. split; [apply length_imap|].
    intros i record Hi. rewrite list_lookup_imap, Hi.
    cbn [fmap option_fmap option_map]. unfold format_3d.
    replace (S i) with (i + 1)%nat by lia.
    now rewrite append_assoc.
Qed.

(** X20.  The command [history] (what was typed, stripped and in lower
    case) makes the turn write what [show_history] writes and go on, with
    the calculator as it was. *)
Theorem history_command (H : Host) (str_strip str_lower : string -> string)
    (self : Calculator.t) (con : console) (text : string)
    (rest : list input_event) :
  stdin con = Line text :: rest ->
  str_lower (str_strip text) = "history" ->
  run_turn H str_strip str_lower (self, con) =
    (Done Continue,
     (self,
      answered con
        (turn_opening (history self) ++
         stdout
           (snd (snd (show_history (self, {| stdin := []; stdout := [] |}))))))).
Proof.
  intros Hin Hcmd. unfold run_turn, try_catch.
  erewrite C_bind_done by (eapply run_prompt_line; exact Hin).
  rewrite Hcmd. unfold run_command.
  cbn [string_in existsb String.eqb Ascii.eqb Bool.eqb andb orb].
  erewrite C_bind_done by apply show_history_run.
  rewrite written_answered, show_history_run. reflexivity.
Qed.

Lemma history_command_witness :
  run_turn RefHost.host RefHost.str_strip RefHost.str_lower
    (with_history Calculator.__init__ ["1 + 1 = 2"],
     {| stdin := [Line " History"]; stdout := [] |}) =
    (Done Continue,
     (with_history Calculator.__init__ ["1 + 1 = 2"],
      answered {| stdin := [Line " History"]; stdout := [] |}
        (turn_opening ["1 + 1 = 2"] ++
         printed
           [nl +:+ repeat_string "=" 60; "📊 完整计算历史记录";
            repeat_string "=" 60; "  1. 1 + 1 = 2"; repeat_string "=" 60]))).
Proof.
  apply (history_command RefHost.host RefHost.str_strip RefHost.str_lower
           (with_history Calculator.__init__ ["1 + 1 = 2"])
           {| stdin := [Line " History"]; stdout := [] |} " History" []).
  - reflexivity.
  - vm_compute. reflexivity.
Defined.

(** X21.  The command [clear] empties the history, writes its confirmation
    and goes on; the evaluator and the welcome flag are as they were.  The
    history being empty, the next turn opens with the menu. *)
Theorem clear_command (H : Host) (str_strip str_lower : string -> string)
    (self : Calculator.t) (con : console) (text : string)
    (rest : list input_event) :
  stdin con = Line text :: rest ->
  str_lower (str_strip text) = "clear" ->
  run_turn H str_strip str_lower (self, con) =
    (Done Continue,
     (with_history self [],
      answered con
        (turn_opening (history self) ++
         [(nl +:+ "✅ 历史记录已清除") +:+ nl]))) /\
  turn_opening (history (with_history self [])) = (menu_text [] ++ [prompt])%list.
Proof.
  intros Hin Hcmd. split; [|reflexivity]. unfold run_turn, try_catch.
  erewrite C_bind_done by (eapply run_prompt_line; exact Hin).
  rewrite Hcmd. unfold run_command.
  cbn [string_in existsb String.eqb Ascii.eqb Bool.eqb andb orb].
  unfold clear_history.
  erewrite C_bind_done;
    [|erewrite C_bind_done by reflexivity; apply print_run].
  now rewrite written_answered.
Qed.

Lemma clear_command_witness :
  run_turn RefHost.host RefHost.str_strip RefHost.str_lower
    (with_history Calculator.__init__ ["1 + 1 = 2"],
     {| stdin := [Line "CLEAR"]; stdout := [] |}) =
    (Done Continue,
     (with_history (with_history Calculator.__init__ ["1 + 1 = 2"]) [],
      answered {| stdin := [Line "CLEAR"]; stdout := [] |}
        (turn_opening ["1 + 1 = 2"] ++
         [(nl +:+ "✅ 历史记录已清除") +:+ nl]))) /\
  turn_opening [] = (menu_text [] ++ [prompt])%list.
Proof.
  apply (clear_command RefHost.host RefHost.str_strip RefHost.str_lower
           (with_history Calculator.__init__ ["1 + 1 = 2"])
           {| stdin := [Line "CLEAR"]; stdout := [] |} "CLEAR" []).
  - reflexivity.
  - vm_compute. reflexivity.
Defined.

(** ** More on the display *)

(** X22.  An integer-valued float is displayed as the decimal writing of the
    integer it holds: the text reads back as that integer and has no
    point, no exponent part and no fraction. *)
Theorem integer_result_display (x : float) :
  float_is_integer x = true ->
  exists n,
    trunc_Z x = Some n /\
    format_result (VFloat x) = Ret (str_int n) /\
    option_map Z.of_int (NilZero.int_of_string (str_int n)) = Some n /\
    occurs "." (str_int n) = false.
Proof.
  intros Hi. destruct (integer_trunc_is_round x Hi) as [n [Ht Hr]].
  exists n. split; [exact Ht|].
  unfold format_result, float_int, long_from_double. rewrite Hi, Ht.
  split; [reflexivity|].
  split; [apply str_int_reads_back | apply str_int_no_point].
Qed.

Lemma integer_result_display_witness :
  exists n,
    trunc_Z 1024 = Some n /\
    format_result (VFloat 1024) = Ret (str_int n) /\
    option_map Z.of_int (NilZero.int_of_string (str_int n)) = Some n /\
    occurs "." (str_int n) = false.
Proof.
  apply (integer_result_display 1024). vm_compute. reflexivity.
Defined.

(** The float of an integer below 2^53 in magnitude is finite: the integer
    is shifted to 53 digits and nothing is rounded. *)
Lemma digits2_pos_size (p : positive) : digits2_pos p = Pos.size p.
Proof. induction p; simpl; congruence. Qed.

Lemma digits2_pos_shift (k p : positive) :
  digits2_pos (Pos.iter xO p k) = (digits2_pos p + k)%positive.
Proof.
  induction k as [|k IH] using Pos.peano_ind.
  - simpl. lia.
  - rewrite Pos.iter_succ. simpl. rewrite IH. lia.
Qed.

Lemma shr_fexp_canonical (m : positive) (e : Z) :
  canonical_mantissa prec emax m e = true ->
  shr_fexp prec emax (Z.pos m) e loc_Exact =
    ({| shr_m := Z.pos m; shr_r := false; shr_s := false |}, e).
Proof.
  unfold canonical_mantissa, shr_fexp. intros Hc. apply Z.eqb_eq in Hc.
  cbn [Zdigits2 shr_record_of_loc]. rewrite Hc, Z.sub_diag. reflexivity.
Qed.

Lemma binary_round_aux_canonical (s : bool) (m : positive) (e : Z) :
  bounded prec emax m e = true ->
  binary_round_aux prec emax s (Z.pos m) e loc_Exact = S754_finite s m e.
Proof.
  unfold bounded. intros Hb. apply andb_true_iff in Hb as [Hc He].
  unfold binary_round_aux. rewrite (shr_fexp_canonical m e Hc).
  cbn [shr_m loc_of_shr_record round_nearest_even].
  rewrite (shr_fexp_canonical m e Hc). cbn [shr_m]. now rewrite He.
Qed.

Lemma binary_round_small (s : bool) (p : positive) :
  (Z.pos (digits2_pos p) <= 53)%Z ->
  exists m e,
    binary_round prec emax s p 0 = S754_finite s m e /\
    bounded prec emax m e = true.
Proof.
  intros Hd. unfold binary_round, shl_align.
  assert (Hf : fexp prec emax (Z.pos (digits2_pos p) + 0) =
               (Z.pos (digits2_pos p) - 53)%Z).
  { unfold fexp, emin, prec, emax. lia. }
  rewrite Hf.
  destruct (Z.pos (digits2_pos p) - 53 - 0)%Z as [|k|k] eqn:Hk; [|lia|].
  - assert (Hb : bounded prec emax p 0 = true).
    { unfold bounded, canonical_mantissa. rewrite Hf.
      apply andb_true_iff. split; [apply Z.eqb_eq; lia|reflexivity]. }
    exists p, 0%Z. split; [|exact Hb]. now apply binary_round_aux_canonical.
  - assert (Hb : bounded prec emax (Pos.iter xO p k)
                   (Z.pos (digits2_pos p) - 53) = true).
    { unfold bounded, canonical_mantissa. rewrite digits2_pos_shift.
      apply andb_true_iff. split.
      - apply Z.eqb_eq. unfold fexp, emin, prec, emax. lia.
      - apply Z.leb_le. unfold prec, emax. lia. }
    eexists _, _. split; [|exact Hb]. now apply binary_round_aux_canonical.
Qed.

Lemma float_of_Z_small (n : Z) :
  (Z.abs n < 2 ^ 53)%Z -> isinf (float_of_Z n) = false.
Proof.
  intros Hn. unfold float_of_Z.
  assert (Hsize : forall p, (Z.pos p < 2 ^ 53)%Z ->
                            (Z.pos (digits2_pos p) <= 53)%Z).
  { intros p Hp. rewrite digits2_pos_size.
    pose proof (Pos.size_le p) as Hle.
    apply Pos2Z.pos_le_pos in Hle. rewrite Pos2Z.inj_pow in Hle.
    destruct (Z_le_gt_dec (Z.pos (Pos.size p)) 53) as [|Hgt]; [assumption|].
    assert (2 ^ 54 <= 2 ^ Z.pos (Pos.size p))%Z
      by (apply Z.pow_le_mono_r; lia).
    change (Z.pos p~0) with (2 * Z.pos p)%Z in Hle.
    change (2 ^ 54)%Z with (2 * 2 ^ 53)%Z in *. lia. }
  rewrite isinf_spec.
  destruct n as [|p|p]; cbn [binary_normalize].
  - reflexivity.
  - destruct (binary_round_small false p (Hsize p Hn)) as (m & e & -> & Hb).
    now rewrite FloatAxioms.Prim2SF_SF2Prim.
  - destruct (binary_round_small true p (Hsize p Hn)) as (m & e & -> & Hb).
    now rewrite FloatAxioms.Prim2SF_SF2Prim.
Qed.

Lemma round_small (x : float) :
  isfinite x = true -> float_is_integer x = false ->
  exists n, round_half_even_Z x = Some n /\ (Z.abs n < 2 ^ 53)%Z.
Proof.
  intros Hf Hi. unfold float_is_integer in Hi. rewrite Hf in Hi.
  cbn [andb] in Hi. unfold floor_eq in Hi. unfold round_half_even_Z.
  pose proof (FloatAxioms.Prim2SF_valid x) as Hv.
  rewrite isfinite_spec in Hf.
  destruct (Prim2SF x) as [s|s| |s m e]; try discriminate.
  apply orb_false_iff in Hi as [He _]. rewrite He.
  apply Z.leb_gt in He.
  cbn [valid_binary] in Hv. unfold bounded, canonical_mantissa in Hv.
  apply andb_true_iff in Hv as [Hc _]. apply Z.eqb_eq in Hc.
  assert (Hd : (Z.pos (digits2_pos m) <= 53)%Z).
  { unfold fexp, emin, prec, emax in Hc. lia. }
  assert (Hm : (Z.pos m < 2 ^ 53)%Z).
  { pose proof (Pos.size_gt m) as Hgt. apply Pos2Z.pos_lt_pos in Hgt.
    rewrite Pos2Z.inj_pow, <- digits2_pos_size in Hgt.
    assert (2 ^ Z.pos (digits2_pos m) <= 2 ^ 53)%Z
      by (apply Z.pow_le_mono_r; lia).
    lia. }
  assert (Hp : (2 <= 2 ^ (- e))%Z).
  { change 2%Z with (2 ^ 1)%Z at 1. apply Z.pow_le_mono_r; lia. }
  assert (Hq : (0 <= Z.pos m / 2 ^ (- e) < 2 ^ 52)%Z).
  { split; [apply Z.div_pos; lia|].
    apply Z.div_lt_upper_bound; [lia|].
    change (2 ^ 53)%Z with (2 * 2 ^ 52)%Z in Hm. nia. }
  eexists. split; [reflexivity|].
  assert (H52 : (2 ^ 52 + 1 < 2 ^ 53)%Z) by reflexivity.
  repeat match goal with
         | |- context [if ?c then _ else _] => destruct c
         end; lia.
Qed.

(** X23.  On every finite float [format_result] returns, by the rule of its
    three branches: the decimal writing of the nearest integer when the
    float is an integer or within [1e-10] of it, the presentation [.6e] when
    the magnitude is at least [1e6] or at most [1e-4], the presentation
    [.8g] otherwise.  The conversion of the nearest integer back to a float
    cannot overflow there. *)
Theorem format_result_finite (x : float) :
  isfinite x = true ->
  exists n,
    round_half_even_Z x = Some n /\
    format_result (VFloat x) =
      Ret (if float_is_integer x
              || (fabs (x - float_of_Z n) <? f_1e_10)%float
           then str_int n
           else if (f_1e6 <=? fabs x)%float || (fabs x <=? f_1e_4)%float
                then format_e 6 x
                else format_g 8 x).
Proof.
  intros Hf. destruct (float_is_integer x) eqn:Hi.
  - destruct (integer_trunc_is_round x Hi) as [n [Ht Hr]].
    exists n. split; [exact Hr|].
    unfold format_result, float_int, long_from_double. now rewrite Hi, Ht.
  - destruct (round_small x Hf Hi) as [n [Hr Hn]].
    exists n. split; [exact Hr|].
    unfold format_result, float_round, float_sub_int, int_to_float,
      long_from_double.
    rewrite Hi, Hr. cbn -[float_of_Z isinf fabs format_e format_g str_int].
    rewrite (float_of_Z_small n Hn).
    cbn -[float_of_Z isinf fabs format_e format_g str_int].
    destruct (fabs (x - float_of_Z n) <? f_1e_10)%float; [reflexivity|].
    match goal with
    | |- (if ?c then _ else _) = _ => now destruct c
    end.
Qed.

Lemma format_result_finite_witness :
  exists n,
    round_half_even_Z 0.75 = Some n /\
    format_result (VFloat 0.75) =
      Ret (if float_is_integer 0.75
              || (fabs (0.75 - float_of_Z n) <? f_1e_10)%float
           then str_int n
           else if (f_1e6 <=? fabs 0.75)%float || (fabs 0.75 <=? f_1e_4)%float
                then format_e 6 0.75
                else format_g 8 0.75).
Proof.
  apply (format_result_finite 0.75). vm_compute. reflexivity.
Defined.

(** X24.  [format_result] has a display for the finite floats and for
    nothing else: it returns on a value exactly when the value is a float
    that is finite. *)
Theorem format_result_returns_iff_finite (v : value) :
  (exists display, format_result v = Ret display) <->
  (exists x, v = VFloat x /\ isfinite x = true).
Proof.
  split.
  - intros [display Hd]. destruct v as [x|re im]; [|discriminate Hd].
    exists x. split; [reflexivity|].
    destruct (isfinite x) eqn:Hf; [reflexivity|]. exfalso. revert Hd.
    unfold format_result, float_is_integer. rewrite Hf. cbn [andb].
    unfold float_round, round_half_even_Z, long_from_double.
    rewrite isfinite_spec in Hf.
    destruct (Prim2SF x); try discriminate Hf; now destruct (isnan x).
  - intros [x [-> Hf]]. destruct (float_is_integer x) eqn:Hi.
    + destruct (integer_trunc_is_round x Hi) as [n [Ht _]].
      exists (str_int n).
      unfold format_result, float_int, long_from_double. now rewrite Hi, Ht.
    + destruct (round_small x Hf Hi) as [n [Hr Hn]].
      unfold format_result, float_round, float_sub_int, int_to_float,
        long_from_double.
      rewrite Hi, Hr. cbn -[float_of_Z isinf fabs format_e format_g str_int].
      rewrite (float_of_Z_small n Hn).
      cbn -[float_of_Z isinf fabs format_e format_g str_int].
      repeat match goal with
             | |- context [if ?c then _ else _] => destruct c
             end; eauto.
Qed.

(** ** More on the handlers of [eval] *)

(** X25.  An exception that is none of those [eval] names (an
    [OverflowError] of the host, as for an integer literal too large for a
    float or a power out of range, or one of any other class, as the
    [RecursionError] of a walk that runs out of frames), raised by the
    parser or anywhere the walk reaches within the frames of the stack,
    comes out as a [ValueError] whose message is the prefix of the
    calculator followed by the message of the exception. *)
Theorem unexpected_exception_is_wrapped (H : Host) (self : t)
    (expression : string) (e : exn) :
  ast_parse H (replace "^" "**" expression) = Raise e \/
  (exists c node n,
     ast_parse H (replace "^" "**" expression) = Ret (plug c node) /\
     reaches H self c (stack_room H) n /\
     _eval_node H (S n) node self = (Raise e, self)) ->
  match e with
  | OverflowError _ | OtherException _ _ => True
  | _ => False
  end ->
  eval H expression self =
    (Raise (ValueError ("❌ 错误：" +:+ str_exn e)), self).
Proof.
  intros Hraise He.
  assert (Heval : eval H expression self = eval_except e self).
  { destruct Hraise as [Hp|(c & node & n & Hp & Hc & Hn)].
    - now apply eval_parse_raise.
    - now apply (eval_raise_in_context H expression self c node n). }
  rewrite Heval. now destruct e.
Qed.

(** [2 ** 1024], and an integer of 310 digits as an operand, on the
    reference host. *)
Lemma unexpected_exception_is_wrapped_witness :
  eval RefHost.host "2 ** 1024" __init__ =
    (Raise (ValueError "❌ 错误：(34, 'Numerical result out of range')"),
     __init__) /\
  eval RefHost.host
    "1 + 1000000000000000000000000000000000000000000000000000000000000000000000000000000000000000000000000000000000000000000000000000000000000000000000000000000000000000000000000000000000000000000000000000000000000000000000000000000000000000000000000000000000000000000000000000000000000000000000000000000000000000000000"
    __init__ =
    (Raise (ValueError "❌ 错误：int too large to convert to float"), __init__).
Proof.
  split.
  - apply (unexpected_exception_is_wrapped RefHost.host __init__ "2 ** 1024"
             (OverflowError "(34, 'Numerical result out of range')")).
    + right.
      exists CHole, (BinOp (Constant (CInt 2)) Pow (Constant (CInt 1024))),
        993%nat.
      split; [vm_compute; reflexivity|].
      split; [vm_compute; reflexivity|].
      vm_compute. reflexivity.
    + exact I.
  - apply (unexpected_exception_is_wrapped RefHost.host __init__
             "1 + 1000000000000000000000000000000000000000000000000000000000000000000000000000000000000000000000000000000000000000000000000000000000000000000000000000000000000000000000000000000000000000000000000000000000000000000000000000000000000000000000000000000000000000000000000000000000000000000000000000000000000000000000"
             (OverflowError "int too large to convert to float")).
    + right.
      exists (CBinOpRight (Constant (CInt 1)) Add CHole),
        (Constant (CInt (10 ^ 309))), 992%nat.
      split; [vm_compute; reflexivity|].
      split; [vm_compute; split; [exists (VFloat 1)|]; reflexivity|].
      vm_compute. reflexivity.
    + exact I.
Defined.

(** ** The program *)

(** X26.  [main] on a console with finitely many events to read ends
    without raising: a new calculator writes the welcome, then the menu with
    its placeholder and the prompt, then the rest; at the end the evaluator
    still has the tables it was built with, and the history holds one record
    for each event read at most. *)
Theorem main_session (H : Host) (str_strip str_lower : string -> string)
    (fuel : nat) (con : console) :
  (length (stdin con) < fuel)%nat ->
  exists self' texts k,
    main H str_strip str_lower fuel con =
      Some (Done tt,
            (self',
             {| stdin := drop k (stdin con);
                stdout :=
                  (stdout con ++ welcome_text ++ menu_text [] ++ [prompt]
                   ++ texts)%list |})) /\
    evaluator self' = SafeExpressionEvaluator.__init__ /\
    welcome_shown self' = true /\
    (length (history self') <= length (stdin con))%nat.
Proof.
  intros Hlen. unfold main, run. rewrite show_welcome_run.
  cbn [Calculator.__init__ welcome_shown history evaluator].
  destruct (run_loop_ends H str_strip str_lower fuel
              {| history := []; welcome_shown := true;
                 evaluator := SafeExpressionEvaluator.__init__ |}
              (written con welcome_text) Hlen)
    as (self' & [rest out] & -> & Hev & Hw & Hh & [texts Hout] & [k Hin]).
  cbn [stdin stdout written history] in *.
  exists self', texts, k. subst rest out.
  split; [|auto]. unfold turn_opening. cbn [length Nat.modulo Nat.eqb].
  now rewrite <- !app_assoc.
Qed.

Lemma main_session_witness :
  exists self' texts k,
    main RefHost.host RefHost.str_strip RefHost.str_lower 3
      {| stdin := [Line "2 + 3 * 4"; Line "quit"]; stdout := [] |} =
      Some (Done tt,
            (self',
             {| stdin := drop k [Line "2 + 3 * 4"; Line "quit"];
                stdout :=
                  ([] ++ welcome_text ++ menu_text [] ++ [prompt]
                   ++ texts)%list |})) /\
    evaluator self' = SafeExpressionEvaluator.__init__ /\
    welcome_shown self' = true /\
    (length (history self') <= 2)%nat.
Proof.
  apply (main_session RefHost.host RefHost.str_strip RefHost.str_lower 3
           {| stdin := [Line "2 + 3 * 4"; Line "quit"]; stdout := [] |}).
  simpl. lia.
Defined.
